(** * OPUS-Net daily position viewer: parse, filter, convert

    A shallow embedding of [OPUS_net_Daily_Position_App.py].  The script
    fetches a whitespace-separated position file for a site, turns the
    year / day-of-year columns into a [Date] column, filters the rows by a
    start date and a row count, and converts the selected rows.

    The script is a thin layer over pandas, the Python [datetime] module,
    [requests] and Streamlit.  What the script relies on from those
    libraries is written out here, next to the line of the script that
    uses it:

    - dates are Python [datetime.date] values with the proleptic Gregorian
      ordinal of CPython; a pandas [Timestamp] at midnight is compared
      through that ordinal.  A Timestamp counts nanoseconds in 64 bits:
      [to_datetime] takes the days from 1677-09-22 to 2262-04-11 and
      raises for the others; statements on the dates of a file are given
      for the years 1678 .. 2261, every day of which lies inside;
    - [strptime] and [strftime] work on text, with the regular expressions
      of the format directives and the order in which a backtracking
      matcher tries their alternatives;
    - [read_csv] is the tokenizer's policy on the width of records; the
      types pandas infers are modelled for the two date columns only;
    - floating point values are not interpreted: a numeric field is kept
      as the token read from the file, and the pyproj transformation is a
      parameter of the conversion;
    - exceptions are values of [exn]; a computation that may raise returns
      a [result]; the script runs in a state monad over the session state,
      what is on screen, and a ghost record of the calls of the filter.

    [load_site_names] and the site selection only feed the URL and are
    inputs of a run.

    The file has three parts: the model, the definitions used to state
    properties, and the properties: lemmas, the claims C1 .. C10, and
    further properties of the code, X1 .. X16, with their lemmas. *)

From Stdlib Require Import ZArith List Bool Lia Ascii String DecimalString.
From Stdlib Require Import Decimal DecimalFacts DecimalPos DecimalZ.
From stdpp Require Import base option list strings gmap.

Local Open Scope string_scope.
Local Open Scope Z_scope.

(** ** Exceptions and results *)

Inductive exn : Type :=
| RequestException (msg : string)  (* requests.exceptions.RequestException and its subclasses *)
| ParserError                      (* pandas.errors.ParserError, raised by read_csv *)
| ValueError                       (* raised by to_datetime (OutOfBoundsDatetime is one),
                                      date arithmetic, DataFrame(...) *)
| AttributeError                   (* st.session_state.<name> for a name that is not set *)
| TypeError.                       (* an operation on a value of the wrong type *)

Inductive result (A : Type) : Type :=
| Ok (a : A)
| Raise (e : exn).
Arguments Ok {A} a.
Arguments Raise {A} e.

Definition rbind {A B} (r : result A) (k : A -> result B) : result B :=
  match r with
  | Ok a => k a
  | Raise e => Raise e
  end.

Declare Scope result_scope.
Delimit Scope result_scope with result.
Notation "'let!' x := r 'in' k" := (rbind r (fun x => k))
  (at level 10, x pattern, r at level 100, k at level 200) : result_scope.

(** A list comprehension whose body may raise: the first exception wins. *)
Fixpoint traverse {A B} (f : A -> result B) (l : list A) : result (list B) :=
  match l with
  | [] => Ok []
  | a :: l' =>
      match f a with
      | Ok b =>
          match traverse f l' with
          | Ok bs => Ok (b :: bs)
          | Raise e => Raise e
          end
      | Raise e => Raise e
      end
  end.

(** ** Python's [datetime.date] (CPython, Lib/_pydatetime.py) *)

Module datetime.

Record date : Type := mkdate { year : Z; month : Z; day : Z }.

Definition MINYEAR : Z := 1.
Definition MAXYEAR : Z := 9999.

Definition _DAYS_IN_MONTH : list Z :=
  [-1; 31; 28; 31; 30; 31; 30; 31; 31; 30; 31; 30; 31].
Definition _DAYS_BEFORE_MONTH : list Z :=
  [-1; 0; 31; 59; 90; 120; 151; 181; 212; 243; 273; 304; 334].

(** [tbl[i]] for a table indexed by a month number. *)
Definition at_ (tbl : list Z) (i : Z) : Z := nth (Z.to_nat i) tbl (-1).

Definition _is_leap (y : Z) : bool :=
  (y mod 4 =? 0) && (negb (y mod 100 =? 0) || (y mod 400 =? 0)).

Definition _days_before_year (y : Z) : Z :=
  let y := y - 1 in y * 365 + y / 4 - y / 100 + y / 400.

Definition _days_in_month (y m : Z) : Z :=
  if (m =? 2) && _is_leap y then 29 else at_ _DAYS_IN_MONTH m.

Definition _days_before_month (y m : Z) : Z :=
  at_ _DAYS_BEFORE_MONTH m + (if (2 <? m) && _is_leap y then 1 else 0).

Definition _ymd2ord (y m d : Z) : Z :=
  _days_before_year y + _days_before_month y m + d.

Definition _DI400Y : Z := 146097.
Definition _DI100Y : Z := 36524.
Definition _DI4Y : Z := 1461.

Definition _ord2ymd (n : Z) : Z * Z * Z :=
  let n := n - 1 in
  let n400 := n / _DI400Y in
  let n := n mod _DI400Y in
  let y := n400 * 400 + 1 in
  let n100 := n / _DI100Y in
  let n := n mod _DI100Y in
  let n4 := n / _DI4Y in
  let n := n mod _DI4Y in
  let n1 := n / 365 in
  let n := n mod 365 in
  let y := y + n100 * 100 + n4 * 4 + n1 in
  if (n1 =? 4) || (n100 =? 4) then (y - 1, 12, 31)
  else
    let leapyear := (n1 =? 3) && (negb (n4 =? 24) || (n100 =? 3)) in
    let m := Z.shiftr (n + 50) 5 in
    let preceding :=
      at_ _DAYS_BEFORE_MONTH m + (if (2 <? m) && leapyear then 1 else 0) in
    let '(m, preceding) :=
      if n <? preceding
      then (m - 1,
            preceding -
            (at_ _DAYS_IN_MONTH (m - 1) +
             (if (m - 1 =? 2) && leapyear then 1 else 0)))
      else (m, preceding) in
    (y, m, n - preceding + 1).

(** [_check_date_fields]: what [date(year, month, day)] accepts. *)
Definition valid_fields (y m d : Z) : bool :=
  (MINYEAR <=? y) && (y <=? MAXYEAR) &&
  (1 <=? m) && (m <=? 12) &&
  (1 <=? d) && (d <=? _days_in_month y m).

(** The constructor [date(year, month, day)]. *)
Definition new (y m d : Z) : result date :=
  if valid_fields y m d then Ok (mkdate y m d) else Raise ValueError.

Definition valid (dt : date) : bool := valid_fields (year dt) (month dt) (day dt).

Definition toordinal (dt : date) : Z := _ymd2ord (year dt) (month dt) (day dt).

Definition fromordinal (n : Z) : result date :=
  let '(y, m, d) := _ord2ymd n in new y m d.

(** [timetuple().tm_yday]: the day number within the year, 1 for Jan 1. *)
Definition yday (dt : date) : Z := _days_before_month (year dt) (month dt) + day dt.

Definition days_in_year (y : Z) : Z := if _is_leap y then 366 else 365.

End datetime.

(** ** Decimal text: Python's [str(int)] and [int(str)] *)

Definition str (z : Z) : string := NilZero.string_of_int (Z.to_int z).

Definition is_digit (c : ascii) : bool :=
  let n := N_of_ascii c in (48 <=? n)%N && (n <=? 57)%N.

Definition digit_value (c : ascii) : Z := Z.of_N (N_of_ascii c) - 48.

Fixpoint int_digits (acc : Z) (s : string) : Z :=
  match s with
  | EmptyString => acc
  | String c s' => int_digits (10 * acc + digit_value c) s'
  end.

(** [int(s)] for a group matched by one of the regular expressions below:
    decimal digits, after an optional blank (the " [1-9]" form of %d). *)
Definition int (s : string) : Z :=
  match s with
  | String " " s' => int_digits 0 s'
  | _ => int_digits 0 s
  end.

(** ** The format directives of pandas' [strptime]
    (pandas/_libs/tslibs/strptime.pyx, class TimeRE; the same regular
    expressions as CPython's _strptime) *)

Module strptime.
Import datetime.

(** A character class, and an alternative as a sequence of classes. *)
Definition cls : Type := ascii -> bool.
Definition ch (c : ascii) : cls := fun x => Ascii.eqb x c.
Definition rng (lo hi : ascii) : cls :=
  fun x => (N_of_ascii lo <=? N_of_ascii x)%N && (N_of_ascii x <=? N_of_ascii hi)%N.
Definition d_ : cls := is_digit.   (* \d *)

Fixpoint match_seq (p : list cls) (s : string) : option (string * string) :=
  match p with
  | [] => Some (EmptyString, s)
  | k :: p' =>
      match s with
      | String c s' =>
          if k c then
            match match_seq p' s' with
            | Some (m, rest) => Some (String c m, rest)
            | None => None
            end
          else None
      | EmptyString => None
      end
  end.

(** "Y": \d\d\d\d *)
Definition re_Y : list (list cls) := [[d_; d_; d_; d_]].
(** "j": 36[0-6]|3[0-5]\d|[1-2]\d\d|0[1-9]\d|00[1-9]|[1-9]\d|0[1-9]|[1-9] *)
Definition re_j : list (list cls) :=
  [[ch "3"; ch "6"; rng "0" "6"]; [ch "3"; rng "0" "5"; d_]; [rng "1" "2"; d_; d_];
   [ch "0"; rng "1" "9"; d_]; [ch "0"; ch "0"; rng "1" "9"]; [rng "1" "9"; d_];
   [ch "0"; rng "1" "9"]; [rng "1" "9"]].
(** "m": 1[0-2]|0[1-9]|[1-9] *)
Definition re_m : list (list cls) :=
  [[ch "1"; rng "0" "2"]; [ch "0"; rng "1" "9"]; [rng "1" "9"]].
(** "d": 3[0-1]|[1-2]\d|0[1-9]|[1-9]| [1-9] *)
Definition re_d : list (list cls) :=
  [[ch "3"; rng "0" "1"]; [rng "1" "2"; d_]; [ch "0"; rng "1" "9"]; [rng "1" "9"];
   [ch " "; rng "1" "9"]].
Definition re_slash : list (list cls) := [[ch "/"]].

(** [re.match] for a format compiled to a sequence of groups, each a list
    of alternatives: the first way to match all the groups, trying the
    alternatives of a group from left to right and going back to the next
    alternative of an earlier group when a later group fails.  The result
    is the text of each group and what is left of the input. *)
Fixpoint try_alternatives (k : string -> option (list string * string))
    (alts : list (list cls)) (s : string) : option (list string * string) :=
  match alts with
  | [] => None
  | p :: alts' =>
      match match_seq p s with
      | Some (m, rest) =>
          match k rest with
          | Some (ms, rest') => Some (m :: ms, rest')
          | None => try_alternatives k alts' s
          end
      | None => try_alternatives k alts' s
      end
  end.

Fixpoint re_match (groups : list (list (list cls))) (s : string)
  : option (list string * string) :=
  match groups with
  | [] => Some ([], s)
  | g :: gs => try_alternatives (re_match gs) g s
  end.

(** [array_strptime(values, fmt="%Y%j", exact=True, errors="raise")] on
    one value: no match and unconverted data both raise ValueError; the
    day number is then counted from January 1 of the year:
    [date.fromordinal((julian - 1) + date(year, 1, 1).toordinal())]. *)
Definition strptime_Yj (val : string) : result date :=
  match re_match [re_Y; re_j] val with
  | Some ([y; j], EmptyString) =>
      (let! jan1 := new (int y) 1 1 in
       fromordinal ((int j - 1) + toordinal jan1))%result
  | _ => Raise ValueError
  end.

(** The same with the format "%m/%d/%Y": the fields go through
    [date(year, month, day)]. *)
Definition strptime_mdY (val : string) : result date :=
  match re_match [re_m; re_slash; re_d; re_slash; re_Y] val with
  | Some ([m; _; d; _; y], EmptyString) => new (int y) (int m) (int d)
  | _ => Raise ValueError
  end.

(** %m and %d: two digits, zero padded. *)
Definition pad2 (z : Z) : string := if z <? 10 then "0" +:+ str z else str z.

(** [strftime("%m/%d/%Y")].  %Y is the decimal year, four digits for
    every year a Timestamp can hold. *)
Definition strftime_mdY (dt : date) : string :=
  pad2 (month dt) +:+ "/" +:+ pad2 (day dt) +:+ "/" +:+ str (year dt).

End strptime.

(** ** pandas Timestamps *)

(** A Timestamp counts the nanoseconds from 1970 in 64 bits, from
    1677-09-21 00:12:43.145224193 to 2262-04-11 23:47:16.854775807:
    midnight of a day is a Timestamp from 1677-09-22 to 2262-04-11. *)
Definition Timestamp_min : datetime.date := datetime.mkdate 1677 9 22.
Definition Timestamp_max : datetime.date := datetime.mkdate 2262 4 11.

(** [pd.to_datetime] on one date, read from a text or given as a
    [datetime.date]: the Timestamp at midnight of that day.  Outside the
    range it raises OutOfBoundsDatetime, which is a ValueError. *)
Definition to_datetime (d : datetime.date) : result datetime.date :=
  if (datetime.toordinal Timestamp_min <=? datetime.toordinal d) &&
     (datetime.toordinal d <=? datetime.toordinal Timestamp_max)
  then Ok d else Raise ValueError.

(** ** Tables *)

(** A field of the file.  [None] is the missing value (NaN); a present
    field keeps the token as it was read. *)
Definition cell : Type := option string.

(** Row labels: positions for the default RangeIndex, the leading fields
    when read_csv builds the index from surplus columns. *)
Inductive label : Type :=
| RangeLabel (i : nat)
| LeadLabel (cs : list cell).

(** A row of the frame returned by [read_txt_from_url]; the columns are
    'Date', 'X', 'isWithinTolerance', 'X(m)', 'Y(m)', 'Z(m)', 'sigmaX(m)',
    'sigmaY(m)', 'sigmaZ(m)'. *)
Record row : Type := mkrow {
  index : label;
  Date : string;
  X : cell;
  isWithinTolerance : cell;
  X_m : cell;
  Y_m : cell;
  Z_m : cell;
  sigmaX_m : cell;
  sigmaY_m : cell;
  sigmaZ_m : cell
}.

Definition DataFrame : Type := list row.

(** ** pandas.read_csv(data, delim_whitespace=True, header=None, names=...)
    (the C tokenizer, pandas/_libs/src/parser/tokenizer.c, and
    TextReader._get_header in pandas/_libs/parsers.pyx), on plain text:
    printable ASCII characters and blanks, in lines ended by LF or CR LF.
    The quote character, which stays active under delim_whitespace, a
    byte order mark, a CR without LF and characters outside ASCII are
    not modelled; the statements on [read_csv] are given for the texts
    that [plain] accepts, defined with the statements. *)

Module read_csv.

Definition is_newline (c : ascii) : bool := Ascii.eqb c "010" || Ascii.eqb c "013".
Definition is_blank (c : ascii) : bool := Ascii.eqb c " " || Ascii.eqb c "009".

(** Cut [s] at every character of the class [sep]. *)
Fixpoint split_on (sep : ascii -> bool) (cur : string) (s : string) : list string :=
  match s with
  | EmptyString => [String.rev cur]
  | String c s' =>
      if sep c then String.rev cur :: split_on sep EmptyString s'
      else split_on sep (String c cur) s'
  end.

Definition nonempty (s : string) : bool :=
  match s with EmptyString => false | _ => true end.

(** The fields of a line: maximal runs of non-blank characters. *)
Definition fields (line : string) : list string :=
  List.filter nonempty (split_on is_blank EmptyString line).

(** The records of a text: its lines, cut into fields; lines without a
    field are skipped (skip_blank_lines=True). *)
Definition records (text : string) : list (list string) :=
  List.filter (fun fs => negb (length fs =? 0)%nat)
    (map fields (split_on is_newline EmptyString text)).

(** The default [na_values] of read_csv. *)
Definition na_values : list string :=
  ["#N/A"; "#N/A N/A"; "#NA"; "-1.#IND"; "-1.#QNAN"; "-NaN"; "-nan";
   "1.#IND"; "1.#QNAN"; "<NA>"; "N/A"; "NA"; "NULL"; "NaN"; "None";
   "n/a"; "nan"; "null"].

Definition to_cell (tok : string) : cell :=
  if existsb (String.eqb tok) na_values then None else Some tok.

(** ['YYYY', 'DDD', 'X', 'isWithinTolerance', 'X(m)', 'Y(m)', 'Z(m)',
    'sigmaX(m)', 'sigmaY(m)', 'sigmaZ(m)'] *)
Definition column_names : list string :=
  ["YYYY"; "DDD"; "X"; "isWithinTolerance"; "X(m)"; "Y(m)"; "Z(m)";
   "sigmaX(m)"; "sigmaY(m)"; "sigmaZ(m)"].

(** The number of fields every record is brought to: the width of the
    first record, or the number of names when that is larger. *)
Definition expected_fields (recs : list (list string)) : nat :=
  match recs with
  | [] => length column_names
  | first :: _ => Nat.max (length first) (length column_names)
  end.

(** end_line: a record with fewer fields than expected is completed with
    empty fields, which read as NaN. *)
Definition pad (width : nat) (fs : list string) : list cell :=
  map to_cell fs ++ repeat None (width - length fs).

(** A parsed record: its label and the cells of the ten named columns.
    When the records are wider than the names, the leading columns
    become the index (leading_cols). *)
Definition labelled (lead : nat) (i : nat) (cs : list cell) : label * list cell :=
  match lead with
  | O => (RangeLabel i, cs)
  | _ => (LeadLabel (firstn lead cs), skipn lead cs)
  end.

(** The whole call.  A record after the first with more fields than
    expected raises ParserError ("Expected n fields in line k, saw m"). *)
Definition read_csv (text : string) : result (list (label * list cell)) :=
  let recs := records text in
  let width := expected_fields recs in
  if forallb (fun fs => (length fs <=? width)%nat) recs
  then Ok (imap (labelled (width - length column_names)) (map (pad width) recs))
  else Raise ParserError.

End read_csv.

(** ** read_txt_from_url: from the text to the frame (lines 19-33) *)

Fixpoint all_digits (s : string) : bool :=
  match s with
  | EmptyString => true
  | String c s' => is_digit c && all_digits s'
  end.

(** A token the C parser reads as an int64: an optional sign and decimal
    digits, within the 64-bit range (str_to_int64). *)
Definition int_literal (tok : string) : option Z :=
  let '(neg, body) :=
    match tok with
    | String "-" s' => (true, s')
    | String "+" s' => (false, s')
    | _ => (false, tok)
    end in
  if read_csv.nonempty body && all_digits body then
    let v := if neg : bool then - int_digits 0 body else int_digits 0 body in
    if (- 2 ^ 63 <=? v) && (v <? 2 ^ 63) then Some v else None
  else None.

(** The values of a column that pandas types int64: every field is
    present and is an integer literal. *)
Definition int64_column (col : list cell) : option (list Z) :=
  mapM (fun c : cell => c ≫= int_literal) col.

(** [row[name]] by the position of the name among the ten columns. *)
Definition col (i : nat) (r : label * list cell) : cell := nth i (snd r) None.

(** Line 24:
    [pd.to_datetime(df['YYYY'].astype(str) + df['DDD'].astype(str),
                    format='%Y%j').dt.strftime('%m/%d/%Y')].
    Both columns are int64 when every record carries integer literals
    there, and [astype(str)] then gives the decimal text without padding.
    Otherwise a column is float64 (its text has a '.', an exponent, "nan"
    or "inf"), bool or object (it holds a token that is no number), and
    [to_datetime] raises ValueError on the first text that [%Y%j] does not
    match exactly, or whose date no Timestamp can hold.  (One text of
    such a column is read as a missing date instead: two tokens that
    together spell NaT or nan.  The model raises there as well, and no
    statement is made about such lines.)  [date_entry] is the entry
    computed for one record. *)
Definition date_entry (yyyy ddd : Z) : result string :=
  (let! dt := strptime.strptime_Yj (str yyyy +:+ str ddd) in
   let! ts := to_datetime dt in
   Ok (strptime.strftime_mdY ts))%result.

Definition date_column (raw : list (label * list cell)) : result (list string) :=
  match int64_column (map (col 0) raw), int64_column (map (col 1) raw) with
  | Some YYYY, Some DDD => traverse (fun '(y, d) => date_entry y d) (zip YYYY DDD)
  | _, _ => Raise ValueError
  end.

(** Lines 27-31: drop 'YYYY' and 'DDD', put 'Date' first. *)
Definition with_date (r : label * list cell) (date : string) : row :=
  {| index := fst r; Date := date;
     X := col 2 r; isWithinTolerance := col 3 r;
     X_m := col 4 r; Y_m := col 5 r; Z_m := col 6 r;
     sigmaX_m := col 7 r; sigmaY_m := col 8 r; sigmaZ_m := col 9 r |}.

(** The body of the [try] block, given the outcome of
    [requests.get(url)] followed by [raise_for_status()]: the text of the
    response, or the exception raised. *)
Definition parse_response (response : result string) : result DataFrame :=
  (let! text := response in
   let! raw := read_csv.read_csv text in
   let! dates := date_column raw in
   Ok (zip_with with_date raw dates))%result.

(** ** The session: Streamlit's session state and what is on screen *)

Inductive value : Type :=
| VFrame (df : DataFrame)
| VBool (b : bool).

Section Script.

(** The type of converted coordinates and pyproj's
    [Transformer.from_crs(EPSG:4978, EPSG:4326, always_xy=True).transform],
    which returns (lon, lat, height) or raises. *)
Variable coord : Type.
Variable transform : cell -> cell -> cell -> result (coord * coord * coord).

(** A row of the converted frame; the columns are 'Date', 'Latitude',
    'Longitude', 'Height (m)', 'Sigma Latitude (m)',
    'Sigma Longitude (m)', 'Sigma Height (m)'. *)
Record converted_row : Type := mkconverted {
  c_index : label;
  c_Date : string;
  Latitude : coord;
  Longitude : coord;
  Height_m : coord;
  Sigma_Latitude_m : cell;
  Sigma_Longitude_m : cell;
  Sigma_Height_m : cell
}.

Inductive shown : Type :=
| Error (msg : string)                     (* st.error *)
| Table (df : DataFrame)                   (* st.dataframe(filtered_data) *)
| Converted (df : list converted_row).     (* st.dataframe(converted_data) *)

(** [filter_calls] is a ghost field: the arguments of every evaluation
    of the filter of lines 100-101, latest first. *)
Record world : Type := mkworld {
  session_state : gmap string value;
  screen : list shown;
  filter_calls : list (DataFrame * datetime.date * Z)
}.

Definition M (A : Type) : Type := world -> result A * world.

Definition ret {A} (a : A) : M A := fun w => (Ok a, w).
Definition bind {A B} (m : M A) (k : A -> M B) : M B :=
  fun w => match m w with
           | (Ok a, w') => k a w'
           | (Raise e, w') => (Raise e, w')
           end.
Definition lift {A} (r : result A) : M A := fun w => (r, w).

Definition raise {A} (e : exn) : M A := lift (Raise e).

Notation "x <- m ;; k" := (bind m (fun x => k))
  (at level 100, m at next level, right associativity).
Notation "m ;;; k" := (bind m (fun _ => k))
  (at level 100, right associativity).

(** [name in st.session_state], [st.session_state.name] and
    [st.session_state.name = v]. *)
Definition session_has (name : string) : M bool :=
  fun w => (Ok (bool_decide (is_Some (session_state w !! name))), w).
Definition session_get (name : string) : M value :=
  fun w => match session_state w !! name with
           | Some v => (Ok v, w)
           | None => (Raise AttributeError, w)
           end.
Definition session_set (name : string) (v : value) : M unit :=
  fun w => (Ok tt, mkworld (<[name := v]> (session_state w)) (screen w) (filter_calls w)).

Definition display (item : shown) : M unit :=
  fun w => (Ok tt, mkworld (session_state w) (screen w ++ [item]) (filter_calls w)).

Definition log_filter_call (df : DataFrame) (start : datetime.date) (n : Z) : M unit :=
  fun w => (Ok tt, mkworld (session_state w) (screen w) ((df, start, n) :: filter_calls w)).

(** The truth value of a stored value in an [if]; a DataFrame has none. *)
Definition truthy (v : value) : result bool :=
  match v with
  | VBool b => Ok b
  | VFrame _ => Raise ValueError
  end.

Definition as_frame (v : value) : result DataFrame :=
  match v with
  | VFrame df => Ok df
  | VBool _ => Raise TypeError
  end.

(** *** Lines 14-36 *)

(** [try: ... return df / except RequestException as e: st.error(...);
    return None].  Any other exception leaves the function. *)
Definition read_txt_from_url (requests_get : string -> result string) (url : string)
  : M (option DataFrame) :=
  match parse_response (requests_get url) with
  | Ok df => ret (Some df)
  | Raise (RequestException msg) =>
      display (Error ("Error loading data: " +:+ msg)) ;;; ret None
  | Raise e => raise e
  end.

(** *** Lines 39-57 *)

Definition convert_xyz_to_lat_lon_height (x y z : cell) : result (coord * coord * coord) :=
  (let! (lon, lat, height) := transform x y z in
   Ok (lat, lon, height))%result.

Definition convert_uncertainties {A B C : Type} (sigma_x : A) (sigma_y : B) (sigma_z : C)
  : A * B * C := (sigma_x, sigma_y, sigma_z).

(** *** Lines 100-101: the filter *)

(** [pd.to_datetime(data['Date'])] on a column written by
    [strftime('%m/%d/%Y')]: the format found for its first entry is
    %m/%d/%Y, every entry is parsed with it, and an entry whose date no
    Timestamp can hold raises. *)
Definition to_datetime_Date (data : DataFrame) : result (list datetime.date) :=
  traverse (fun r => (let! dt := strptime.strptime_mdY (Date r) in to_datetime dt)%result)
    data.

(** Timestamps at midnight are ordered by their day number. *)
Definition Timestamp_le (a b : datetime.date) : bool :=
  datetime.toordinal a <=? datetime.toordinal b.

(** [data[mask]] with a boolean column aligned with [data]. *)
Fixpoint boolean_index (data : DataFrame) (mask : list bool) : DataFrame :=
  match data, mask with
  | r :: data', b :: mask' =>
      if b then r :: boolean_index data' mask' else boolean_index data' mask'
  | _, _ => []
  end.

(** [data.head(n)], that is [data.iloc[:n]]: the first [n] rows, or for
    a negative [n] all rows but the last [-n]. *)
Definition head (n : Z) (data : DataFrame) : DataFrame :=
  if 0 <=? n then firstn (Z.to_nat n) data
  else firstn (length data - Z.to_nat (- n)) data.

(** Both sides of [>=] go through [pd.to_datetime], the column first. *)
Definition show_data (data : DataFrame) (start_date : datetime.date) (rows_to_show : Z)
  : result DataFrame :=
  (let! dates := to_datetime_Date data in
   let! start := to_datetime start_date in
   let mask := map (fun d => Timestamp_le start d) dates in
   let filtered_data := boolean_index data mask in
   Ok (head rows_to_show filtered_data))%result.

(** *** Lines 112-155: the conversion *)

Record columns : Type := mkcolumns {
  latitudes : list coord;
  longitudes : list coord;
  heights : list coord;
  sigma_latitudes : list cell;
  sigma_longitudes : list cell;
  sigma_heights : list cell
}.

Definition no_columns : columns := mkcolumns [] [] [] [] [] [].

(** The loop over [data.iterrows()], appending to the six lists. *)
Fixpoint convert_loop (data : DataFrame) (acc : columns) : result columns :=
  match data with
  | [] => Ok acc
  | r :: data' =>
      (let! (lat, lon, height) := convert_xyz_to_lat_lon_height (X_m r) (Y_m r) (Z_m r) in
       let '(sigma_lat, sigma_lon, sigma_height) :=
         convert_uncertainties (sigmaX_m r) (sigmaY_m r) (sigmaZ_m r) in
       convert_loop data'
         (mkcolumns (latitudes acc ++ [lat]) (longitudes acc ++ [lon])
            (heights acc ++ [height]) (sigma_latitudes acc ++ [sigma_lat])
            (sigma_longitudes acc ++ [sigma_lon])
            (sigma_heights acc ++ [sigma_height])))%result
  end.

(** [pd.DataFrame({'Date': data['Date'], 'Latitude': latitudes, ...})]:
    the labels are those of the 'Date' column, and a list whose length
    differs from the number of labels raises ValueError. *)
Fixpoint frame_of_columns (dates : list (label * string))
    (lats lons hs : list coord) (slats slons shs : list cell)
  : result (list converted_row) :=
  match dates, lats, lons, hs, slats, slons, shs with
  | [], [], [], [], [], [], [] => Ok []
  | (i, d) :: dates', lat :: lats', lon :: lons', h :: hs',
    slat :: slats', slon :: slons', sh :: shs' =>
      (let! rest := frame_of_columns dates' lats' lons' hs' slats' slons' shs' in
       Ok (mkconverted i d lat lon h slat slon sh :: rest))%result
  | _, _, _, _, _, _, _ => Raise ValueError
  end.

Definition convert (data : DataFrame) : result (list converted_row) :=
  (let! cols := convert_loop data no_columns in
   frame_of_columns (map (fun r => (index r, Date r)) data)
     (latitudes cols) (longitudes cols) (heights cols)
     (sigma_latitudes cols) (sigma_longitudes cols) (sigma_heights cols))%result.

(** *** The script, run once per interaction (lines 59-158) *)

(** What one run of the script gets from outside: the answer of the
    server to [requests.get], and the state of the widgets. *)
Record inputs : Type := mkinputs {
  requests_get : string -> result string;
  selected_site : option string;     (* st.selectbox('Select a site', site_names) *)
  fetch_clicked : bool;              (* st.button('Fetch Data') *)
  date_pick : option datetime.date;  (* the day picked in the date input, if any *)
  rows_pick : nat;                   (* the position picked among [10, 50, 100] *)
  show_clicked : bool;               (* st.button('Show Data') *)
  convert_clicked : bool             (* st.button('Convert') *)
}.

Definition base_url : string :=
  "https://geodesy.noaa.gov/corsdata/spec_prod/opus/coord_14/".

(** Lines 69-82. *)
Definition fetch_section (inp : inputs) : M unit :=
  if fetch_clicked inp then
    match selected_site inp with
    | Some site =>
        if read_csv.nonempty site then
          let url := base_url +:+ site in
          data <- read_txt_from_url (requests_get inp) url ;;
          match data with
          | Some df =>
              session_set "data" (VFrame df) ;;;
              session_set "show_date_filter" (VBool true)
          | None => session_set "show_date_filter" (VBool false)
          end
        else ret tt
    | None => ret tt
    end
  else ret tt.

(** [available_dates.min()] and [.max()]: the first entry that no other
    entry is strictly before (after).  On an empty column the result is
    NaT, which is not a date the date input can take: the run ends. *)
Fixpoint extreme (before : datetime.date -> datetime.date -> bool)
    (ds : list datetime.date) : result datetime.date :=
  match ds with
  | [] => Raise ValueError
  | d :: ds' =>
      match extreme before ds' with
      | Ok m => Ok (if before d m then d else m)
      | Raise _ => Ok d
      end
  end.

Definition min_ (ds : list datetime.date) : result datetime.date :=
  extreme Timestamp_le ds.
Definition max_ (ds : list datetime.date) : result datetime.date :=
  extreme (fun a b => Timestamp_le b a) ds.

(** [st.date_input(label, min_value=, max_value=, value=)]: the widget
    offers the days from [min_value] to [max_value] and starts at
    [value]; a day outside that range cannot be chosen, the widget then
    keeps its value. *)
Definition date_input (min_value max_value value : datetime.date)
    (pick : option datetime.date) : datetime.date :=
  match pick with
  | Some d => if Timestamp_le min_value d && Timestamp_le d max_value then d else value
  | None => value
  end.

(** [st.selectbox(label, [10, 50, 100], index=0)]. *)
Definition selectbox_rows (pick : nat) : Z := nth pick [10; 50; 100] 10.

(** Lines 85-107. *)
Definition date_filter_section (inp : inputs) : M unit :=
  present <- session_has "show_date_filter" ;;
  flag <- (if present : bool
           then v <- session_get "show_date_filter" ;; lift (truthy v)
           else ret false) ;;
  if flag : bool then
    v <- session_get "data" ;;
    data <- lift (as_frame v) ;;
    available_dates <- lift (to_datetime_Date data) ;;
    min_date <- lift (min_ available_dates) ;;
    max_date <- lift (max_ available_dates) ;;
    let start_date := date_input min_date max_date min_date (date_pick inp) in
    let rows_to_show := selectbox_rows (rows_pick inp) in
    if show_clicked inp then
      v <- session_get "data" ;;
      data <- lift (as_frame v) ;;
      log_filter_call data start_date rows_to_show ;;;
      filtered_data <- lift (show_data data start_date rows_to_show) ;;
      session_set "filtered_data" (VFrame filtered_data) ;;;
      display (Table filtered_data)
    else ret tt
  else ret tt.

(** Lines 110-158.  A stored value is never None. *)
Definition convert_section (inp : inputs) : M unit :=
  present <- session_has "filtered_data" ;;
  if present : bool then
    if convert_clicked inp then
      v <- session_get "filtered_data" ;;
      data <- lift (as_frame v) ;;
      converted_data <- lift (convert data) ;;
      display (Converted converted_data)
    else ret tt
  else ret tt.

Definition script (inp : inputs) : M unit :=
  fetch_section inp ;;; date_filter_section inp ;;; convert_section inp.

End Script.

Arguments mkconverted {coord}.
Arguments c_index {coord}.
Arguments c_Date {coord}.
Arguments mkworld {coord}.
Arguments session_state {coord}.
Arguments screen {coord}.
Arguments filter_calls {coord}.
Arguments ret {coord A}.
Arguments bind {coord A B}.
Arguments Error {coord}.
Arguments Table {coord}.
Arguments Converted {coord}.
Arguments Latitude {coord}.
Arguments Longitude {coord}.
Arguments Height_m {coord}.
Arguments Sigma_Latitude_m {coord}.
Arguments Sigma_Longitude_m {coord}.
Arguments Sigma_Height_m {coord}.
Arguments mkcolumns {coord}.
Arguments latitudes {coord}.
Arguments longitudes {coord}.
Arguments heights {coord}.
Arguments sigma_latitudes {coord}.
Arguments sigma_longitudes {coord}.
Arguments sigma_heights {coord}.

(** * Definitions used in the statements *)

(** ** Calendar *)

(** The month and the day that [_ord2ymd] finds for the day [n] (counted
    from 0) of a year. *)
Definition month_day (leapyear : bool) (n : Z) : Z * Z :=
  let m := Z.shiftr (n + 50) 5 in
  let preceding :=
    datetime.at_ datetime._DAYS_BEFORE_MONTH m + (if (2 <? m) && leapyear then 1 else 0) in
  let '(m, preceding) :=
    if n <? preceding
    then (m - 1,
          preceding -
          (datetime.at_ datetime._DAYS_IN_MONTH (m - 1) +
           (if (m - 1 =? 2) && leapyear then 1 else 0)))
    else (m, preceding) in
  (m, n - preceding + 1).

(** [month_day] gives a month, a day of that month, and as many days
    before it in the year as [n]. *)
Definition month_day_ok (leapyear : bool) (n : Z) : bool :=
  let '(m, d) := month_day leapyear n in
  (1 <=? m) && (m <=? 12) && (1 <=? d) &&
  (d <=? (if (m =? 2) && leapyear then 29 else datetime.at_ datetime._DAYS_IN_MONTH m)) &&
  (datetime.at_ datetime._DAYS_BEFORE_MONTH m + (if (2 <? m) && leapyear then 1 else 0) + d
   =? n + 1).

(** Calendar order: by year, then month, then day. *)
Definition on_or_before (a b : datetime.date) : Prop :=
  datetime.year a < datetime.year b \/
  (datetime.year a = datetime.year b /\
   (datetime.month a < datetime.month b \/
    (datetime.month a = datetime.month b /\ datetime.day a <= datetime.day b))).

Global Instance on_or_before_dec (a b : datetime.date) : Decision (on_or_before a b).
Proof. unfold on_or_before. apply _. Defined.


(** The years every day of which a pandas Timestamp can hold. *)
Definition first_year : Z := 1678.
Definition last_year : Z := 2261.
Definition years : list Z := seqZ first_year (last_year - first_year + 1).

(** A date that a Timestamp can hold. *)
Definition timestamp_date (dt : datetime.date) : Prop :=
  datetime.valid dt = true /\ first_year <= datetime.year dt <= last_year.

(** A day whose midnight a Timestamp can hold, in calendar terms. *)
Definition timestamp_day (dt : datetime.date) : Prop :=
  datetime.valid dt = true /\
  on_or_before Timestamp_min dt /\ on_or_before dt Timestamp_max.

(** ** Text of numbers *)

(** A text of four digits. *)
Definition four_digits (s : string) : bool :=
  match s with
  | String a (String b (String c (String e EmptyString))) =>
      is_digit a && is_digit b && is_digit c && is_digit e
  | _ => false
  end.

Definition year_text_ok (y : Z) : bool :=
  four_digits (str y) && (int (str y) =? y).

(** %j takes the text of [doy] as a whole and reads the number back. *)
Definition j_accepts (doy : Z) : bool :=
  match strptime.re_match [strptime.re_j] (str doy) with
  | Some ([j], EmptyString) => int j =? doy
  | _ => false
  end.


(** ** Lines and rows *)

(** Plain text: printable ASCII characters other than the double quote,
    blanks, and line ends written LF or CR LF.  Such a text has no quoted
    field, no byte order mark and no digit other than 0 .. 9, and the
    records that [read_csv] reads from it are its lines cut at the
    blanks, [read_csv.records]. *)
Definition plain_char (c : ascii) : bool :=
  let n := N_of_ascii c in
  ((33 <=? n) && (n <=? 126) && negb (n =? 34))%N ||
  read_csv.is_blank c || Ascii.eqb c "010".

Fixpoint plain (text : string) : bool :=
  match text with
  | EmptyString => true
  | String c rest =>
      (plain_char c ||
       (Ascii.eqb c "013" &&
        match rest with
        | String c' _ => Ascii.eqb c' "010"
        | EmptyString => false
        end)) && plain rest
  end.

(** The cell at position [k] of a line: NaN when the line has no such
    field. *)
Definition field (k : nat) (fs : list string) : cell :=
  match nth_error fs k with
  | Some tok => read_csv.to_cell tok
  | None => None
  end.

(** The 'Date' entry of a line, from its first two fields. *)
Definition line_date (fs : list string) : result string :=
  match fs with
  | yyyy :: ddd :: _ =>
      match int_literal yyyy, int_literal ddd with
      | Some y, Some d => date_entry y d
      | _, _ => Raise ValueError
      end
  | _ => Raise ValueError
  end.

(** The row made of line number [i] (from 0), with NaN for the fields
    the line does not have. *)
Definition line_row (i : nat) (fs : list string) (date : string) : row :=
  {| index := RangeLabel i; Date := date;
     X := field 2 fs; isWithinTolerance := field 3 fs;
     X_m := field 4 fs; Y_m := field 5 fs; Z_m := field 6 fs;
     sigmaX_m := field 7 fs; sigmaY_m := field 8 fs; sigmaZ_m := field 9 fs |}.

Fixpoint line_rows (i : nat) (recs : list (list string)) (dates : list string)
  : DataFrame :=
  match recs, dates with
  | fs :: recs', date :: dates' => line_row i fs date :: line_rows (S i) recs' dates'
  | _, _ => []
  end.

(** The rows of [read_csv] under a RangeIndex, numbered from [i]. *)
Fixpoint numbered (i : nat) (cells : list (list cell)) : list (label * list cell) :=
  match cells with
  | [] => []
  | cs :: cells' => (RangeLabel i, cs) :: numbered (S i) cells'
  end.

(** ** The filter, as the specification words it *)

(** A record: a calendar date and the row whose 'Date' was written
    from it. *)
Definition written_from (p : datetime.date * row) : Prop :=
  timestamp_date (fst p) /\ Date (snd p) = strptime.strftime_mdY (fst p).


(** The start date lies between the earliest and the latest date of the
    frame, in the order the filter compares by. *)
Definition within_dates (data : DataFrame) (start : datetime.date) : Prop :=
  exists dates lo hi,
    to_datetime_Date data = Ok dates /\ In lo dates /\ In hi dates /\
    (forall d, In d dates ->
       datetime.toordinal lo <= datetime.toordinal d <= datetime.toordinal hi) /\
    datetime.toordinal lo <= datetime.toordinal start <= datetime.toordinal hi.

(** ** The conversion of one row *)

Definition converts_to (coord : Type)
    (transform : cell -> cell -> cell -> result (coord * coord * coord))
    (r : row) (c : converted_row coord) : Prop :=
  c_index c = index r /\
  c_Date c = Date r /\
  transform (X_m r) (Y_m r) (Z_m r) = Ok (Longitude c, Latitude c, Height_m c) /\
  Sigma_Latitude_m c = sigmaX_m r /\
  Sigma_Longitude_m c = sigmaY_m r /\
  Sigma_Height_m c = sigmaZ_m r.

Definition converted_of (coord : Type) (r : row) (t : coord * coord * coord)
  : converted_row coord :=
  let '(lon, lat, height) := t in
  mkconverted (index r) (Date r) lat lon height (sigmaX_m r) (sigmaY_m r) (sigmaZ_m r).

Definition append_columns (coord : Type) (acc : columns coord)
    (cs : list (converted_row coord)) : columns coord :=
  mkcolumns
    (latitudes acc ++ map Latitude cs)
    (longitudes acc ++ map Longitude cs)
    (heights acc ++ map Height_m cs)
    (sigma_latitudes acc ++ map Sigma_Latitude_m cs)
    (sigma_longitudes acc ++ map Sigma_Longitude_m cs)
    (sigma_heights acc ++ map Sigma_Height_m cs).

(** ** Sample data *)

(** A line of eight fields. *)
Definition eight_fields : string := "2024 60 X True 1.0 2.0 3.0 0.1".

(** Two lines, the second of eleven fields. *)
Definition eleven_fields : string :=
  "2024 60 X True 1.0 2.0 3.0 0.1 0.2 0.3" +:+ String "010"
  "2024 61 X True 1.0 2.0 3.0 0.1 0.2 0.3 0.4".

Definition station_row (i : nat) (date : string) : row :=
  mkrow (RangeLabel i) date (Some "X") (Some "True")
    (Some "1.0") (Some "2.0") (Some "3.0") (Some "0.1") (Some "0.2") (Some "0.3").

Definition jan1 : row := station_row 0 "01/01/2024".
Definition jan2 : row := station_row 1 "01/02/2024".
Definition jan3 : row := station_row 2 "01/03/2024".


(** A transformation that always answers the same point, and one run of
    the script: the session holds the three January rows, the date input
    is set to January 2 and 'Show Data' is clicked. *)
Definition origin (x y z : cell) : result (Z * Z * Z) := Ok (0, 0, 0).

Definition offline (url : string) : result string :=
  Raise (RequestException "503 Server Error").

Definition january_session : world Z :=
  mkworld (<["show_date_filter" := VBool true]> (<["data" := VFrame [jan1; jan2; jan3]]> ∅))
    [] [].

Definition show_from_jan2 : inputs :=
  mkinputs offline (Some "ab01") false (Some (datetime.mkdate 2024 1 2)) 0 true false.

Definition fetch_offline : inputs :=
  mkinputs offline (Some "ab01") true None 0 false false.

(** ** Lines with and without a date *)

(** A line whose first two fields are a year a Timestamp can hold and a
    day of that year. *)
Definition dated_line (fs : list string) : Prop :=
  exists ytok dtok rest y d,
    fs = ytok :: dtok :: rest /\
    int_literal ytok = Some y /\ int_literal dtok = Some d /\
    first_year <= y <= last_year /\ 1 <= d <= datetime.days_in_year y.

(** A line that lacks its year or its day: the line ends before the
    field, or the field is one of the texts read as NaN. *)
Definition undated_line (fs : list string) : Prop :=
  field 0 fs = None \/ field 1 fs = None.

(** ** Rows, sessions and runs *)

(** The 'Date' of the row reads as the date [d]. *)
Definition dated (r : row) (d : datetime.date) : Prop :=
  rbind (strptime.strptime_mdY (Date r)) to_datetime = Ok d.

(** The stored values have the types the script gives them, and the
    frame is stored whenever the flag is True. *)
Definition session_ok {coord : Type} (w : world coord) : Prop :=
  (forall v, session_state w !! "show_date_filter" = Some v -> exists b, v = VBool b) /\
  (session_state w !! "show_date_filter" = Some (VBool true) ->
   exists df, session_state w !! "data" = Some (VFrame df)) /\
  (forall v, session_state w !! "filtered_data" = Some v -> exists df, v = VFrame df).

(** Where the exception of a run comes from: the request, the
    transformation, or pandas (ParserError, ValueError). *)
Definition raised_by {coord : Type}
    (transform : cell -> cell -> cell -> result (coord * coord * coord))
    (inp : inputs) (e : exn) : Prop :=
  (exists url, requests_get inp url = Raise e) \/
  (exists x y z, transform x y z = Raise e) \/
  e = ParserError \/ e = ValueError.

(** The session of a first run: nothing is stored, nothing is shown. *)
Definition fresh {coord : Type} : world coord := mkworld ∅ [] [].

(** The transformation answers for the row. *)
Definition transformed {coord : Type}
    (transform : cell -> cell -> cell -> result (coord * coord * coord)) (r : row) : Prop :=
  exists t, transform (X_m r) (Y_m r) (Z_m r) = Ok t.

(** What the filter section does on a click on 'Show Data': the frame
    [out] is stored as 'filtered_data' and shown, and the call is
    recorded. *)
Definition shows {coord : Type} (inp : inputs) (w w' : world coord)
    (data out : DataFrame) (start : datetime.date) : Prop :=
  show_data data start (selectbox_rows (rows_pick inp)) = Ok out /\
  w' = mkworld (<["filtered_data" := VFrame out]> (session_state w))
         (screen w ++ [Table out])
         ((data, start, selectbox_rows (rows_pick inp)) :: filter_calls w).

(** ** More sample data *)

(** A server that answers every request with the line of eight fields. *)
Definition online (url : string) : result string := Ok eight_fields.

(** Two lines, the second with the year alone. *)
Definition year_alone : string :=
  "2024 60 X True 1.0 2.0 3.0 0.1 0.2 0.3" +:+ String "010" "2024".

(** Two lines of ten fields, for days 60 and 61 of 2024. *)
Definition two_days : string :=
  "2024 60 X True 1.0 2.0 3.0 0.1 0.2 0.3" +:+ String "010"
  "2024 61 X True 1.0 2.0 3.0 0.1 0.2 0.3".

(** 'Fetch Data' is clicked and the server answers with the two lines. *)
Definition fetch_two_days : inputs :=
  mkinputs (fun _ => Ok two_days) (Some "ab01") true None 0 false false.

(** * Properties *)

(** ** Examples of the model *)

Example str_60 : str 60 = "60".
Proof. reflexivity. Qed.

Example str_negative_5 : str (-5) = "-5".
Proof. reflexivity. Qed.

Example str_0 : str 0 = "0".
Proof. reflexivity. Qed.

Example strptime_mdY_feb29 :
  strptime.strptime_mdY "02/29/2024" = Ok (datetime.mkdate 2024 2 29).
Proof. reflexivity. Qed.

Example strptime_Yj_367 : strptime.strptime_Yj "2023367" = Raise ValueError.
Proof. reflexivity. Qed.

Example records_of_text :
  read_csv.records
    ("2024 060  X" +:+ String "010" (String "010" " 2024 61 Y ")) =
  [["2024"; "060"; "X"]; ["2024"; "61"; "Y"]].
Proof. reflexivity. Qed.

(** A record after the first that is wider than the first stops the whole
    call; the exception is not one that [read_txt_from_url] catches. *)
Example eleven_fields_raise : parse_response (Ok eleven_fields) = Raise ParserError.
Proof. reflexivity. Qed.

(** ** The calendar *)

Section Calendar.
Import datetime.

Ltac tables :=
  repeat match goal with
    | |- context [at_ ?t ?k] =>
        let v := eval vm_compute in (at_ t k) in change (at_ t k) with v
    | H : context [at_ ?t ?k] |- _ =>
        let v := eval vm_compute in (at_ t k) in change (at_ t k) with v in H
    end.

Lemma valid_bounds (dt : date) :
  valid dt = true ->
  1 <= year dt <= 9999 /\ 1 <= month dt <= 12 /\
  1 <= day dt <= _days_in_month (year dt) (month dt).
Proof.
  unfold valid, valid_fields, MINYEAR, MAXYEAR.
  rewrite !andb_true_iff, !Z.leb_le. lia.
Qed.

Lemma div_mod_unique (n d q r : Z) :
  0 <= r < d -> n = d * q + r -> n / d = q /\ n mod d = r.
Proof.
  intros Hr Hn. split; symmetry.
  - by apply (Z.div_unique_pos n d q r).
  - by apply (Z.mod_unique_pos n d q r).
Qed.

(** The whole years before a date, in cycles of 400, 100, 4 and 1 years. *)
Lemma years_radix (Y : Z) :
  0 <= Y ->
  exists a b c e,
    Y = 400 * a + 100 * b + 4 * c + e /\
    0 <= a /\ 0 <= b <= 3 /\ 0 <= c <= 24 /\ 0 <= e <= 3.
Proof.
  intros HY.
  exists (Y / 400), (Y mod 400 / 100), (Y mod 400 mod 100 / 4), (Y mod 400 mod 100 mod 4).
  Z.div_mod_to_equations. lia.
Qed.

Lemma days_before_year_radix (a b c e : Z) :
  0 <= b <= 3 -> 0 <= c <= 24 -> 0 <= e <= 3 ->
  _days_before_year (400 * a + 100 * b + 4 * c + e + 1) =
  146097 * a + 36524 * b + 1461 * c + 365 * e.
Proof.
  intros Hb Hc He. unfold _days_before_year. cbv zeta.
  replace (400 * a + 100 * b + 4 * c + e + 1 - 1)
    with (400 * a + 100 * b + 4 * c + e) by lia.
  destruct (div_mod_unique (400 * a + 100 * b + 4 * c + e) 4 (100 * a + 25 * b + c) e)
    as [-> _]; [lia|lia|].
  destruct (div_mod_unique (400 * a + 100 * b + 4 * c + e) 100 (4 * a + b) (4 * c + e))
    as [-> _]; [lia|lia|].
  destruct (div_mod_unique (400 * a + 100 * b + 4 * c + e) 400 a (100 * b + 4 * c + e))
    as [-> _]; [lia|lia|].
  lia.
Qed.

Lemma is_leap_radix (a b c e : Z) :
  0 <= b <= 3 -> 0 <= c <= 24 -> 0 <= e <= 3 ->
  _is_leap (400 * a + 100 * b + 4 * c + e + 1) =
  (e =? 3) && (negb (c =? 24) || (b =? 3)).
Proof.
  intros Hb Hc He. unfold _is_leap.
  set (y := 400 * a + 100 * b + 4 * c + e + 1).
  assert (y mod 4 = if e =? 3 then 0 else e + 1) as ->.
  { destruct (Z.eqb_spec e 3).
    - apply (div_mod_unique y 4 (100 * a + 25 * b + c + 1) 0); unfold y; lia.
    - apply (div_mod_unique y 4 (100 * a + 25 * b + c) (e + 1)); unfold y; lia. }
  assert (y mod 100 = if (e =? 3) && (c =? 24) then 0 else 4 * c + e + 1) as ->.
  { destruct (Z.eqb_spec e 3), (Z.eqb_spec c 24); simpl.
    - apply (div_mod_unique y 100 (4 * a + b + 1) 0); unfold y; lia.
    - apply (div_mod_unique y 100 (4 * a + b) (4 * c + e + 1)); unfold y; lia.
    - apply (div_mod_unique y 100 (4 * a + b) (4 * c + e + 1)); unfold y; lia.
    - apply (div_mod_unique y 100 (4 * a + b) (4 * c + e + 1)); unfold y; lia. }
  assert (y mod 400 = if (e =? 3) && (c =? 24) && (b =? 3) then 0
                      else 100 * b + 4 * c + e + 1) as ->.
  { destruct (Z.eqb_spec e 3), (Z.eqb_spec c 24), (Z.eqb_spec b 3); simpl;
      try (apply (div_mod_unique y 400 a (100 * b + 4 * c + e + 1)); unfold y; lia).
    apply (div_mod_unique y 400 (a + 1) 0); unfold y; lia. }
  destruct (Z.eqb_spec e 3), (Z.eqb_spec c 24), (Z.eqb_spec b 3); simpl;
    repeat match goal with
      | |- context [?x =? 0] => destruct (Z.eqb_spec x 0); try lia
      end; reflexivity.
Qed.

Lemma ord2ymd_tail (leapyear : bool) (y n : Z) :
  (let m := Z.shiftr (n + 50) 5 in
   let preceding :=
     at_ _DAYS_BEFORE_MONTH m + (if (2 <? m) && leapyear then 1 else 0) in
   let '(m, preceding) :=
     if n <? preceding
     then (m - 1,
           preceding -
           (at_ _DAYS_IN_MONTH (m - 1) + (if (m - 1 =? 2) && leapyear then 1 else 0)))
     else (m, preceding) in
   (y, m, n - preceding + 1)) =
  (y, fst (month_day leapyear n), snd (month_day leapyear n)).
Proof.
  unfold month_day. cbv zeta.
  destruct (n <? _); reflexivity.
Qed.

(** [_ord2ymd] on day [k] (from 0) of the year after [400a+100b+4c+e]
    whole years. *)
Lemma ord2ymd_radix (a b c e k : Z) :
  0 <= b <= 3 -> 0 <= c <= 24 -> 0 <= e <= 3 ->
  let leapyear := (e =? 3) && (negb (c =? 24) || (b =? 3)) in
  0 <= k <= 364 + (if leapyear then 1 else 0) ->
  month_day true 365 = (12, 31) ->
  _ord2ymd (146097 * a + 36524 * b + 1461 * c + 365 * e + k + 1) =
  (400 * a + 100 * b + 4 * c + e + 1,
   fst (month_day leapyear k), snd (month_day leapyear k)).
Proof.
  intros Hb Hc He leapyear Hk Hlast.
  remember (365 * e + k) as T eqn:ET.
  remember (1461 * c + T) as S eqn:ES.
  remember (36524 * b + S) as R eqn:ER.
  remember (146097 * a + R) as N eqn:EN.
  assert (0 <= k <= 365) as Hk' by (destruct leapyear; lia).
  assert (0 <= T <= 1460) as HT by (subst T; destruct leapyear; lia).
  assert (leapyear = true -> e = 3 /\ (c <> 24 \/ b = 3)) as Hleap.
  { unfold leapyear. rewrite andb_true_iff, orb_true_iff, negb_true_iff.
    rewrite !Z.eqb_eq, Z.eqb_neq. tauto. }
  assert (k = 365 -> leapyear = true) as Hk365 by (destruct leapyear; lia).
  unfold _ord2ymd, _DI400Y, _DI100Y, _DI4Y. cbv zeta.
  replace (146097 * a + 36524 * b + 1461 * c + 365 * e + k + 1 - 1) with N by lia.
  destruct (div_mod_unique N 146097 a R) as [-> ->]; [lia|lia|].
  destruct (Z.eq_dec S 36524) as [HS|HS].
  - (* December 31 at the end of a cycle of 400 years *)
    assert (b = 3 /\ c = 24 /\ e = 3 /\ k = 365) as (-> & -> & -> & ->).
    { destruct leapyear; [destruct Hleap as [? ?]; [reflexivity|]|]; lia. }
    destruct (div_mod_unique R 36524 4 0) as [-> ->]; [lia|lia|].
    change (4 =? 4) with true. rewrite orb_true_r.
    subst leapyear. change ((3 =? 3) && (negb (24 =? 24) || (3 =? 3))) with true.
    rewrite Hlast. cbn [fst snd]. f_equal. f_equal.
    change (0 `div` 1461) with 0. change (0 `mod` 1461) with 0.
    change (0 `div` 365) with 0. ring.
  - destruct (div_mod_unique R 36524 b S) as [-> ->]; [lia|lia|].
    destruct (div_mod_unique S 1461 c T) as [-> ->]; [lia|lia|].
    destruct (Z.eq_dec k 365) as [->|Hk365'].
    + (* December 31 of a leap year *)
      destruct (Hleap (Hk365 eq_refl)) as [-> Hcb].
      destruct (div_mod_unique T 365 4 0) as [-> ->]; [lia|lia|].
      replace leapyear with true by (symmetry; auto).
      change (4 =? 4) with true. cbn [orb].
      rewrite Hlast. cbn [fst snd]. f_equal. f_equal. ring.
    + destruct (div_mod_unique T 365 e k) as [-> ->]; [lia|lia|].
      replace (e =? 4) with false by (symmetry; apply Z.eqb_neq; lia).
      replace (b =? 4) with false by (symmetry; apply Z.eqb_neq; lia).
      cbn [orb]. fold leapyear.
      rewrite ord2ymd_tail. f_equal. f_equal. ring.
Qed.

Lemma month_day_all :
  forallb (month_day_ok true) (seqZ 0 366) && forallb (month_day_ok false) (seqZ 0 365) = true.
Proof. vm_compute. reflexivity. Qed.

Lemma forallb_seqZ (f : Z -> bool) (lo len x : Z) :
  forallb f (seqZ lo len) = true -> lo <= x < lo + len -> f x = true.
Proof.
  intros H Hx. rewrite forallb_forall in H. apply H.
  apply list_elem_of_In, elem_of_seqZ. lia.
Qed.

Lemma month_day_spec (leapyear : bool) (k : Z) :
  0 <= k <= 364 + (if leapyear then 1 else 0) ->
  month_day_ok leapyear k = true.
Proof.
  intros Hk. pose proof month_day_all as H. apply andb_true_iff in H as [Ht Hf].
  destruct leapyear.
  - apply (forallb_seqZ _ _ _ k) in Ht; [assumption|lia].
  - apply (forallb_seqZ _ _ _ k) in Hf; [assumption|lia].
Qed.

(** Day [doy] of year [y], through [fromordinal]. *)
Lemma fromordinal_in_year (y doy : Z) :
  1 <= y <= 9999 -> 1 <= doy <= days_in_year y ->
  exists dt,
    fromordinal (_days_before_year y + doy) = Ok dt /\
    valid dt = true /\ year dt = y /\ yday dt = doy /\
    (month dt, day dt) = month_day (_is_leap y) (doy - 1).
Proof.
  intros Hy Hd.
  destruct (years_radix (y - 1)) as (a & b & c & e & HY & Ha & Hb & Hc & He); [lia|].
  assert (y = 400 * a + 100 * b + 4 * c + e + 1) as Ey by lia.
  pose proof (is_leap_radix a b c e Hb Hc He) as Hleap. rewrite <- Ey in Hleap.
  pose proof (days_before_year_radix a b c e Hb Hc He) as Hdby. rewrite <- Ey in Hdby.
  unfold days_in_year in Hd.
  assert (0 <= doy - 1 <= 364 + (if _is_leap y then 1 else 0)) as Hk
    by (destruct (_is_leap y); lia).
  pose proof (month_day_spec (_is_leap y) (doy - 1) Hk) as Hmd.
  pose proof (ord2ymd_radix a b c e (doy - 1) Hb Hc He) as Hord.
  cbv zeta in Hord. rewrite <- Hleap, <- Ey in Hord.
  specialize (Hord Hk eq_refl).
  replace (146097 * a + 36524 * b + 1461 * c + 365 * e + (doy - 1) + 1)
    with (_days_before_year y + doy) in Hord by lia.
  unfold fromordinal. rewrite Hord.
  unfold month_day_ok in Hmd.
  destruct (month_day (_is_leap y) (doy - 1)) as [m d] eqn:Emd. cbn [fst snd].
  rewrite !andb_true_iff, !Z.leb_le, Z.eqb_eq in Hmd.
  destruct Hmd as [[[[Hm1 Hm2] Hd1] Hd2] Hsum].
  exists (mkdate y m d). unfold new, valid, valid_fields, yday, MINYEAR, MAXYEAR.
  unfold _days_in_month, _days_before_month. cbn [year month day].
  repeat split; try lia.
  - replace ((1 <=? y) && (y <=? 9999) && (1 <=? m) && (m <=? 12) && (1 <=? d) &&
             (d <=? (if (m =? 2) && _is_leap y then 29 else at_ _DAYS_IN_MONTH m)))
      with true; [reflexivity|].
    symmetry. rewrite !andb_true_iff, !Z.leb_le. lia.
Qed.

Lemma is_leap_cases (y : Z) :
  (_is_leap y = true /\ y mod 4 = 0 /\ (y mod 100 <> 0 \/ y mod 400 = 0)) \/
  (_is_leap y = false /\ (y mod 4 <> 0 \/ (y mod 100 = 0 /\ y mod 400 <> 0))).
Proof.
  unfold _is_leap.
  destruct (Z.eqb_spec (y mod 4) 0), (Z.eqb_spec (y mod 100) 0),
    (Z.eqb_spec (y mod 400) 0); simpl; lia.
Qed.

Lemma days_before_year_succ (y : Z) :
  _days_before_year (y + 1) = _days_before_year y + days_in_year y.
Proof.
  unfold _days_before_year, days_in_year.
  replace (y + 1 - 1) with y by lia.
  destruct (is_leap_cases y) as [(-> & H)|(-> & H)];
    Z.div_mod_to_equations; lia.
Qed.

Lemma days_before_year_mono (y1 y2 : Z) :
  y1 <= y2 -> _days_before_year y1 <= _days_before_year y2.
Proof.
  unfold _days_before_year. intros H. Z.div_mod_to_equations. lia.
Qed.

Lemma month_cases (m : Z) :
  1 <= m <= 12 ->
  m = 1 \/ m = 2 \/ m = 3 \/ m = 4 \/ m = 5 \/ m = 6 \/
  m = 7 \/ m = 8 \/ m = 9 \/ m = 10 \/ m = 11 \/ m = 12.
Proof. lia. Qed.

Lemma yday_bounds (dt : date) :
  valid dt = true -> 1 <= yday dt <= days_in_year (year dt).
Proof.
  intros Hv. apply valid_bounds in Hv. destruct dt as [y m d]; simpl in *.
  destruct Hv as (_ & Hm & Hd).
  unfold yday, days_in_year, _days_before_month, _days_in_month in *; simpl.
  apply month_cases in Hm.
  destruct (_is_leap y);
    repeat (destruct Hm as [->|Hm]); try subst m; simpl in *; tables; lia.
Qed.

Lemma yday_order (y m1 d1 m2 d2 : Z) :
  valid (mkdate y m1 d1) = true -> valid (mkdate y m2 d2) = true ->
  (yday (mkdate y m1 d1) <= yday (mkdate y m2 d2) <->
   m1 < m2 \/ (m1 = m2 /\ d1 <= d2)).
Proof.
  intros H1 H2. apply valid_bounds in H1, H2. simpl in *.
  destruct H1 as (_ & Hm1 & Hd1), H2 as (_ & Hm2 & Hd2).
  unfold yday, _days_before_month, _days_in_month in *; simpl.
  apply month_cases in Hm1, Hm2.
  destruct (_is_leap y);
    repeat (destruct Hm1 as [->|Hm1]); try subst m1;
    repeat (destruct Hm2 as [->|Hm2]); try subst m2; simpl in *; tables; lia.
Qed.

Lemma toordinal_yday (dt : date) :
  toordinal dt = _days_before_year (year dt) + yday dt.
Proof. unfold toordinal, _ymd2ord, yday. lia. Qed.

(** The day number orders valid dates as the calendar does. *)
Lemma toordinal_order (a b : date) :
  valid a = true -> valid b = true ->
  (toordinal a <= toordinal b <-> on_or_before a b).
Proof.
  intros Ha Hb. rewrite !toordinal_yday.
  pose proof (yday_bounds a Ha) as Hya. pose proof (yday_bounds b Hb) as Hyb.
  unfold on_or_before.
  destruct (Z.lt_trichotomy (year a) (year b)) as [Hlt|[Heq|Hgt]].
  - pose proof (days_before_year_mono (year a + 1) (year b) ltac:(lia)).
    rewrite days_before_year_succ in *. lia.
  - destruct a as [ya ma da], b as [yb mb db]; simpl in *. subst yb.
    pose proof (yday_order ya ma da mb db Ha Hb). lia.
  - pose proof (days_before_year_mono (year b + 1) (year a) ltac:(lia)).
    rewrite days_before_year_succ in *. lia.
Qed.

(** The days a Timestamp can hold, by the calendar. *)
Lemma to_datetime_day (dt : date) : timestamp_day dt -> to_datetime dt = Ok dt.
Proof.
  intros (Hv & Hlo & Hhi). unfold to_datetime.
  apply (toordinal_order Timestamp_min dt eq_refl Hv) in Hlo.
  apply (toordinal_order dt Timestamp_max Hv eq_refl) in Hhi.
  destruct (Z.leb_spec (toordinal Timestamp_min) (toordinal dt)); [|lia].
  destruct (Z.leb_spec (toordinal dt) (toordinal Timestamp_max)); [reflexivity|lia].
Qed.

Lemma timestamp_date_day (dt : date) : timestamp_date dt -> timestamp_day dt.
Proof.
  intros [Hv Hy]. unfold first_year, last_year in Hy.
  split; [assumption|]. unfold on_or_before, Timestamp_min, Timestamp_max.
  cbn [year month day]. split; left; lia.
Qed.

Lemma to_datetime_date (dt : date) : timestamp_date dt -> to_datetime dt = Ok dt.
Proof. intros H. by apply to_datetime_day, timestamp_date_day. Qed.

Lemma to_datetime_Ok (d ts : date) :
  to_datetime d = Ok ts ->
  ts = d /\ toordinal Timestamp_min <= toordinal d <= toordinal Timestamp_max.
Proof.
  unfold to_datetime.
  destruct (Z.leb_spec (toordinal Timestamp_min) (toordinal d)); [|discriminate].
  destruct (Z.leb_spec (toordinal d) (toordinal Timestamp_max)); [|discriminate].
  intros Heq. simpl in Heq. simplify_eq. split; [reflexivity|lia].
Qed.

Lemma to_datetime_bounds (d : date) :
  toordinal Timestamp_min <= toordinal d <= toordinal Timestamp_max ->
  to_datetime d = Ok d.
Proof.
  intros H. unfold to_datetime.
  destruct (Z.leb_spec (toordinal Timestamp_min) (toordinal d)); [|lia].
  destruct (Z.leb_spec (toordinal d) (toordinal Timestamp_max)); [reflexivity|lia].
Qed.

Lemma to_datetime_raises (d : date) (e : exn) : to_datetime d = Raise e -> e = ValueError.
Proof. unfold to_datetime. destruct (_ && _); intros H; by simplify_eq. Qed.

End Calendar.

(** ** Decimal text *)

Section Decimal.







Lemma append_empty (s : string) : s +:+ EmptyString = s.
Proof.
  induction s as [|c s IH]; [reflexivity|].
  change (String c (s +:+ EmptyString) = String c s). by rewrite IH.
Qed.

End Decimal.

(** ** The format directives *)

Section Regex.
Import strptime.


(** What a successful group took came from one of its alternatives. *)
Lemma try_alternatives_split k (alts : list (list cls)) (s : string) ms rest :
  try_alternatives k alts s = Some (ms, rest) ->
  exists p m r ms', In p alts /\ match_seq p s = Some (m, r) /\
                    k r = Some (ms', rest) /\ ms = m :: ms'.
Proof.
  induction alts as [|p alts IH]; intros H; simpl in H; [discriminate|].
  destruct (match_seq p s) as [[m r]|] eqn:E.
  - destruct (k r) as [[ms' rest']|] eqn:Ek.
    + simplify_eq. exists p, m, r, ms'. repeat split; auto. by left.
    + destruct (IH H) as (p' & m' & r' & ms' & Hin & ?). exists p', m', r', ms'.
      split; [by right|assumption].
  - destruct (IH H) as (p' & m' & r' & ms' & Hin & ?). exists p', m', r', ms'.
    split; [by right|assumption].
Qed.

Lemma match_seq_Y (ys t : string) :
  four_digits ys = true -> match_seq [d_; d_; d_; d_] (ys +:+ t) = Some (ys, t).
Proof.
  destruct ys as [|a [|b [|c [|e [|]]]]]; try discriminate.
  simpl. rewrite !andb_true_iff. intros [[[Ha Hb] Hc] He].
  unfold d_. by rewrite Ha, Hb, Hc, He.
Qed.

Lemma re_match_Y (ys : string) :
  four_digits ys = true -> re_match [re_Y] ys = Some ([ys], EmptyString).
Proof.
  intros H. cbn [re_match re_Y try_alternatives].
  rewrite <- (append_empty ys) at 1. by rewrite match_seq_Y.
Qed.

(** After a year of four digits, %Y%j is decided by what %j makes of the
    rest. *)
Lemma strptime_Yj_split (ys t : string) :
  four_digits ys = true ->
  strptime_Yj (ys +:+ t) =
  match re_match [re_j] t with
  | Some ([j], EmptyString) =>
      rbind (datetime.new (int ys) 1 1)
        (fun jan1 => datetime.fromordinal ((int j - 1) + datetime.toordinal jan1))
  | _ => Raise ValueError
  end.
Proof.
  intros Hy. unfold strptime_Yj.
  change (re_match [re_Y; re_j] (ys +:+ t))
    with (try_alternatives (re_match [re_j]) re_Y (ys +:+ t)).
  cbn [re_Y try_alternatives]. rewrite match_seq_Y by assumption.
  destruct (re_match [re_j] t) as [[ms rest]|] eqn:E; [|reflexivity].
  apply try_alternatives_split in E as (p & m & r & ms' & _ & _ & Hk & ->).
  cbn [re_match] in Hk. simplify_eq. reflexivity.
Qed.



End Regex.

(** ** Year and day of the year *)

Section YearDay.
Import datetime strptime.

Lemma year_text_all : forallb year_text_ok years = true.
Proof. vm_compute. reflexivity. Qed.

Lemma year_text (y : Z) :
  first_year <= y <= last_year -> four_digits (str y) = true /\ int (str y) = y.
Proof.
  intros Hy. pose proof year_text_all as H.
  apply (forallb_seqZ _ _ _ y) in H; [|unfold first_year, last_year in *; lia].
  unfold year_text_ok in H. rewrite andb_true_iff, Z.eqb_eq in H. exact H.
Qed.

Lemma j_accepts_all : forallb j_accepts (seqZ 1 366) = true.
Proof. vm_compute. reflexivity. Qed.




Lemma toordinal_jan1 (y : Z) : toordinal (mkdate y 1 1) = _days_before_year y + 1.
Proof.
  unfold toordinal, _ymd2ord. cbn [year month day].
  assert (_days_before_month y 1 = 0) as -> by reflexivity. lia.
Qed.

(** For a day number from 1 to 366 the entry is the date that
    [fromordinal] finds that many days into the year. *)
Lemma date_entry_fromordinal (y doy : Z) :
  first_year <= y <= last_year -> 1 <= doy <= 366 ->
  date_entry y doy =
  rbind (fromordinal (_days_before_year y + doy))
    (fun dt => rbind (to_datetime dt) (fun ts => Ok (strftime_mdY ts))).
Proof.
  intros Hy Hd. destruct (year_text y Hy) as [H4 Hi].
  unfold first_year, last_year in Hy.
  pose proof j_accepts_all as Hj.
  apply (forallb_seqZ _ _ _ doy) in Hj; [|lia].
  unfold date_entry. rewrite strptime_Yj_split by assumption.
  unfold j_accepts in Hj.
  destruct (re_match [re_j] (str doy)) as [[[|j [|]] [|]]|]; try discriminate.
  apply Z.eqb_eq in Hj. rewrite Hi, Hj.
  assert (new y 1 1 = Ok (mkdate y 1 1)) as ->.
  { unfold new, valid_fields, MINYEAR, MAXYEAR.
    replace (1 <=? y) with true by (symmetry; apply Z.leb_le; lia).
    replace (y <=? 9999) with true by (symmetry; apply Z.leb_le; lia).
    reflexivity. }
  cbn [rbind]. rewrite toordinal_jan1.
  replace (doy - 1 + (_days_before_year y + 1)) with (_days_before_year y + doy) by lia.
  reflexivity.
Qed.

(** Within a year, day [doy] is the date whose day number in the year
    is [doy]. *)
Lemma date_entry_in_year (y doy : Z) :
  first_year <= y <= last_year -> 1 <= doy <= days_in_year y ->
  exists dt, date_entry y doy = Ok (strftime_mdY dt) /\
             valid dt = true /\ year dt = y /\ yday dt = doy.
Proof.
  intros Hy Hd.
  assert (days_in_year y <= 366) as Hmax
    by (unfold days_in_year; destruct (_is_leap y); lia).
  rewrite date_entry_fromordinal by lia.
  unfold first_year, last_year in Hy.
  destruct (fromordinal_in_year y doy) as (dt & -> & Hv & Hyr & Hyd & _); [lia|lia|].
  exists dt. cbn [rbind].
  rewrite to_datetime_date by (split; [assumption|unfold first_year, last_year; lia]).
  auto.
Qed.


End YearDay.

(** ** Writing a date and reading it back *)

Section ReadBack.
Import datetime strptime.

Ltac literal t := let v := eval vm_compute in t in change t with v.

Lemma re_match_m (m : Z) gs (t : string) :
  1 <= m <= 12 ->
  re_match (re_m :: re_slash :: gs) (pad2 m +:+ "/" +:+ t) =
  match re_match gs t with
  | Some (ms, r) => Some (pad2 m :: "/" :: ms, r)
  | None => None
  end.
Proof.
  intros Hm.
  assert (m = 1 \/ m = 2 \/ m = 3 \/ m = 4 \/ m = 5 \/ m = 6 \/
          m = 7 \/ m = 8 \/ m = 9 \/ m = 10 \/ m = 11 \/ m = 12) as H by lia.
  repeat (destruct H as [->|H]); try subst m;
    match goal with |- context [pad2 ?k] => literal (pad2 k) end;
    cbv [String.append]; simpl; destruct (re_match gs t) as [[ms r]|]; reflexivity.
Qed.

Lemma re_match_d (d : Z) gs (t : string) :
  1 <= d <= 31 ->
  re_match (re_d :: re_slash :: gs) (pad2 d +:+ "/" +:+ t) =
  match re_match gs t with
  | Some (ms, r) => Some (pad2 d :: "/" :: ms, r)
  | None => None
  end.
Proof.
  intros Hd.
  assert (d = 1 \/ d = 2 \/ d = 3 \/ d = 4 \/ d = 5 \/ d = 6 \/ d = 7 \/ d = 8 \/
          d = 9 \/ d = 10 \/ d = 11 \/ d = 12 \/ d = 13 \/ d = 14 \/ d = 15 \/
          d = 16 \/ d = 17 \/ d = 18 \/ d = 19 \/ d = 20 \/ d = 21 \/ d = 22 \/
          d = 23 \/ d = 24 \/ d = 25 \/ d = 26 \/ d = 27 \/ d = 28 \/ d = 29 \/
          d = 30 \/ d = 31) as H by lia.
  repeat (destruct H as [->|H]); try subst d;
    match goal with |- context [pad2 ?k] => literal (pad2 k) end;
    cbv [String.append]; simpl; destruct (re_match gs t) as [[ms r]|]; reflexivity.
Qed.

Lemma int_pad2 (z : Z) : 1 <= z <= 31 -> int (pad2 z) = z.
Proof.
  intros Hz. pose proof (forallb_seqZ (fun z => int (pad2 z) =? z) 1 31 z) as H.
  apply Z.eqb_eq, H; [vm_compute; reflexivity|lia].
Qed.

Lemma days_in_month_le (y m : Z) : _days_in_month y m <= 31.
Proof.
  unfold _days_in_month, at_. destruct ((m =? 2) && _is_leap y); [lia|].
  destruct (Z.to_nat m) as [|[|[|[|[|[|[|[|[|[|[|[|[|[|]]]]]]]]]]]]]]; simpl; lia.
Qed.

(** Reading a date written with %m/%d/%Y gives the date back. *)
Lemma strptime_strftime (dt : date) :
  timestamp_date dt -> strptime_mdY (strftime_mdY dt) = Ok dt.
Proof.
  intros [Hv Hy]. destruct (year_text _ Hy) as [H4 Hi].
  pose proof Hv as Hb. apply valid_bounds in Hb. destruct dt as [y m d]; simpl in *.
  destruct Hb as (_ & Hm & Hd). pose proof (days_in_month_le y m).
  unfold strptime_mdY, strftime_mdY. cbn [year month day].
  rewrite re_match_m, re_match_d, re_match_Y by (assumption || lia).
  rewrite Hi, !int_pad2 by lia.
  unfold new. unfold valid in Hv. cbn [year month day] in Hv. by rewrite Hv.
Qed.

End ReadBack.

(** ** The filter *)

Section Filter.
Import datetime strptime.


Lemma to_datetime_Date_written (records : list (date * row)) :
  Forall written_from records ->
  to_datetime_Date (map snd records) = Ok (map fst records).
Proof.
  unfold to_datetime_Date.
  induction 1 as [|[dt r] records [Ht Hd] _ IH]; [reflexivity|].
  cbn [map traverse fst snd] in *.
  rewrite Hd, strptime_strftime by assumption. cbn [rbind].
  rewrite to_datetime_date by assumption. by rewrite IH.
Qed.





Lemma head_positive (n : Z) (data : DataFrame) :
  0 < n -> head n data = firstn (Z.to_nat n) data.
Proof. intros H. unfold head. destruct (Z.leb_spec 0 n); [reflexivity|lia]. Qed.



End Filter.

(** ** The bounds of the date input *)

Section Extremes.
Import datetime.

Lemma min_spec (ds : list date) (m : date) :
  min_ ds = Ok m ->
  In m ds /\ forall d, In d ds -> toordinal m <= toordinal d.
Proof.
  unfold min_. revert m. induction ds as [|d ds IH]; intros m H; [discriminate|].
  simpl in H. destruct (extreme _ ds) as [m'|] eqn:E.
  - destruct (IH m' eq_refl) as [Hin Hle].
    unfold Timestamp_le in H.
    destruct (Z.leb_spec (toordinal d) (toordinal m')); inversion H; subst; simpl.
    + split; [by left|]. intros x [<-|Hx]; [lia|]. specialize (Hle x Hx). lia.
    + split; [by right|]. intros x [<-|Hx]; [lia|]. by apply Hle.
  - inversion H; subst. destruct ds; [|simpl in E; destruct (extreme _ ds); discriminate].
    split; [by left|]. intros x [<-|[]]. lia.
Qed.

Lemma max_spec (ds : list date) (m : date) :
  max_ ds = Ok m ->
  In m ds /\ forall d, In d ds -> toordinal d <= toordinal m.
Proof.
  unfold max_. revert m. induction ds as [|d ds IH]; intros m H; [discriminate|].
  simpl in H. destruct (extreme _ ds) as [m'|] eqn:E.
  - destruct (IH m' eq_refl) as [Hin Hle].
    unfold Timestamp_le in H.
    destruct (Z.leb_spec (toordinal m') (toordinal d)); inversion H; subst; simpl.
    + split; [by left|]. intros x [<-|Hx]; [lia|]. specialize (Hle x Hx). lia.
    + split; [by right|]. intros x [<-|Hx]; [lia|]. by apply Hle.
  - inversion H; subst. destruct ds; [|simpl in E; destruct (extreme _ ds); discriminate].
    split; [by left|]. intros x [<-|[]]. lia.
Qed.

Lemma date_input_range (lo hi : date) (pick : option date) :
  toordinal lo <= toordinal hi ->
  toordinal lo <= toordinal (date_input lo hi lo pick) <= toordinal hi.
Proof.
  intros H. unfold date_input, Timestamp_le. destruct pick as [d|]; [|lia].
  destruct (Z.leb_spec (toordinal lo) (toordinal d)),
    (Z.leb_spec (toordinal d) (toordinal hi)); simpl; lia.
Qed.

Lemma within_dates_input (data : DataFrame) (dates : list date) (lo hi : date)
    (pick : option date) :
  to_datetime_Date data = Ok dates -> min_ dates = Ok lo -> max_ dates = Ok hi ->
  within_dates data (date_input lo hi lo pick).
Proof.
  intros Hd Hlo Hhi.
  apply min_spec in Hlo as [Hlo_in Hlo]. apply max_spec in Hhi as [Hhi_in Hhi].
  exists dates, lo, hi. repeat split; try assumption; try (by auto).
  all: apply date_input_range; auto.
Qed.

End Extremes.

(** ** The conversion *)

Section Conversion.

Variable coord : Type.
Variable transform : cell -> cell -> cell -> result (coord * coord * coord).

Lemma convert_loop_appends (data : DataFrame) :
  forall (cs : list (converted_row coord)) (acc : columns coord),
    Forall2 (converts_to coord transform) data cs ->
    convert_loop coord transform data acc = Ok (append_columns coord acc cs).
Proof.
  induction data as [|r data IH]; intros cs acc HF; inversion HF; subst.
  - destruct acc; unfold append_columns; simpl. by rewrite !app_nil_r.
  - match goal with H : converts_to _ _ r ?c |- _ =>
      destruct H as (_ & _ & Ht & Hs1 & Hs2 & Hs3) end.
    simpl. unfold convert_xyz_to_lat_lon_height. rewrite Ht. simpl.
    erewrite IH by eassumption.
    unfold append_columns; simpl.
    rewrite Hs1, Hs2, Hs3, <- !app_assoc. reflexivity.
Qed.

Lemma frame_of_columns_maps (data : DataFrame) :
  forall cs : list (converted_row coord),
    Forall2 (converts_to coord transform) data cs ->
    frame_of_columns coord (map (fun r => (index r, Date r)) data)
      (map Latitude cs) (map Longitude cs) (map Height_m cs)
      (map Sigma_Latitude_m cs) (map Sigma_Longitude_m cs)
      (map Sigma_Height_m cs) = Ok cs.
Proof.
  induction data as [|r data IH]; intros cs HF; inversion HF; subst; simpl.
  - reflexivity.
  - rewrite IH by assumption. simpl.
    match goal with H : converts_to _ _ r ?c |- _ =>
      destruct H as (Hi & Hd & _); destruct c; simpl in * end.
    by subst.
Qed.

Lemma convert_rows (data : DataFrame) (cs : list (converted_row coord)) :
  Forall2 (converts_to coord transform) data cs -> convert coord transform data = Ok cs.
Proof.
  intros HF. unfold convert.
  rewrite (convert_loop_appends data cs) by assumption. simpl.
  by apply frame_of_columns_maps.
Qed.

Lemma converts_to_exists (data : DataFrame) :
  (forall r, In r data -> exists t, transform (X_m r) (Y_m r) (Z_m r) = Ok t) ->
  exists cs, Forall2 (converts_to coord transform) data cs.
Proof.
  induction data as [|r data IH]; intros H.
  - exists []. constructor.
  - destruct IH as [cs Hcs]; [intros; apply H; by right|].
    destruct (H r) as [[[lon lat] h] Ht]; [by left|].
    exists (converted_of coord r (lon, lat, h) :: cs). constructor; [|assumption].
    repeat split; try reflexivity. exact Ht.
Qed.

End Conversion.

(** ** Lines of the file *)

Section ReadCsv.
Import read_csv.

Lemma nth_pad (fs : list string) :
  forall (k width : nat), nth k (pad width fs) None = field k fs.
Proof.
  unfold pad, field.
  induction fs as [|tok fs IH]; intros k width.
  - simpl. destruct k; simpl; [by destruct (width - 0)%nat|].
    destruct (width - 0)%nat as [|n]; [reflexivity|]. simpl.
    clear. revert n. induction k as [|k IH]; intros [|n]; simpl; auto.
  - destruct k as [|k]; [reflexivity|]. simpl.
    specialize (IH k (width - 1)%nat).
    replace (width - 1 - length fs)%nat with (width - S (length fs))%nat in IH by lia.
    exact IH.
Qed.

Lemma int_literal_not_na (tok : string) (v : Z) :
  int_literal tok = Some v -> to_cell tok = Some tok.
Proof.
  intros H. unfold to_cell.
  destruct (existsb (String.eqb tok) na_values) eqn:E; [|reflexivity].
  apply existsb_exists in E as (x & Hx & Heq). apply String.eqb_eq in Heq. subst x.
  unfold na_values in Hx. simpl in Hx.
  repeat (destruct Hx as [<-|Hx]; [vm_compute in H; discriminate|]). destruct Hx.
Qed.

Lemma expected_fields_short (recs : list (list string)) :
  Forall (fun fs => (length fs <= 10)%nat) recs -> expected_fields recs = 10%nat.
Proof.
  intros H. unfold expected_fields. destruct H as [|fs recs Hfs _]; [reflexivity|].
  change (length column_names) with 10%nat. lia.
Qed.

Lemma imap_numbered (cells : list (list cell)) :
  forall i, imap (fun k => labelled 0 (i + k)) cells = numbered i cells.
Proof.
  induction cells as [|cs cells IH]; intros i; [reflexivity|].
  rewrite imap_cons. simpl. rewrite Nat.add_0_r. f_equal.
  rewrite <- IH. apply imap_ext. intros k x _. simpl. do 2 f_equal. lia.
Qed.

Lemma read_csv_short (text : string) :
  Forall (fun fs => (length fs <= 10)%nat) (records text) ->
  read_csv text = Ok (numbered 0 (map (pad 10) (records text))).
Proof.
  intros H. unfold read_csv. rewrite expected_fields_short by assumption.
  replace (forallb _ (records text)) with true.
  - change (10 - length column_names)%nat with 0%nat.
    f_equal. apply (imap_numbered _ 0%nat).
  - symmetry. apply forallb_forall. intros fs Hin.
    rewrite Forall_forall in H. apply Nat.leb_le, H, list_elem_of_In, Hin.
Qed.

Lemma map_col_numbered (k : nat) (cells : list (list cell)) :
  forall i, map (col k) (numbered i cells) = map (fun cs => nth k cs None) cells.
Proof. induction cells as [|cs cells IH]; intros i; simpl; [|rewrite IH]; reflexivity. Qed.

Lemma col_pair (k : nat) (l : label) (cs : list cell) : col k (l, cs) = nth k cs None.
Proof. reflexivity. Qed.

Lemma date_column_lines (recs : list (list string)) (dates : list string) :
  Forall2 (fun fs s => line_date fs = Ok s) recs dates ->
  forall i, date_column (numbered i (map (pad 10) recs)) = Ok dates.
Proof.
  intros H i. unfold date_column.
  assert (exists ys ds,
    int64_column (map (col 0) (numbered i (map (pad 10) recs))) = Some ys /\
    int64_column (map (col 1) (numbered i (map (pad 10) recs))) = Some ds /\
    traverse (fun '(y, d) => date_entry y d) (zip ys ds) = Ok dates)
    as (ys & ds & -> & -> & Ht); [|exact Ht].
  revert i. induction H as [|fs s recs dates Hfs _ IH]; intros i.
  - exists [], []. auto.
  - destruct (IH (S i)) as (ys & ds & Hy & Hd & Ht).
    destruct fs as [|ytok [|dtok fs]]; try discriminate. simpl in Hfs.
    destruct (int_literal ytok) as [y|] eqn:Ey; [|discriminate].
    destruct (int_literal dtok) as [d|] eqn:Ed; [|discriminate].
    exists (y :: ys), (d :: ds). unfold int64_column in *.
    cbn [map numbered mapM]. rewrite !col_pair, !nth_pad. unfold field. cbn [nth_error].
    rewrite (int_literal_not_na _ _ Ey), (int_literal_not_na _ _ Ed).
    cbn [mbind option_bind]. rewrite Ey, Ed, Hy, Hd. cbn.
    rewrite Hfs, Ht. auto.
Qed.

Lemma zip_with_numbered (recs : list (list string)) :
  forall (dates : list string) i,
    zip_with with_date (numbered i (map (pad 10) recs)) dates = line_rows i recs dates.
Proof.
  induction recs as [|fs recs IH]; intros [|s dates] i; simpl; try reflexivity.
  rewrite IH. f_equal. unfold with_date, line_row, col. simpl.
  by rewrite !nth_pad.
Qed.

(** Lines of at most ten fields are all accepted: a line with fewer
    fields gives a row with NaN in the columns it does not reach. *)
Lemma parse_response_short (text : string) (dates : list string) :
  Forall (fun fs => (length fs <= 10)%nat) (records text) ->
  Forall2 (fun fs s => line_date fs = Ok s) (records text) dates ->
  parse_response (Ok text) = Ok (line_rows 0 (records text) dates).
Proof.
  intros Hlen Hdates. unfold parse_response. cbn [rbind].
  rewrite read_csv_short by assumption. cbn [rbind].
  rewrite (date_column_lines _ _ Hdates). cbn [rbind].
  by rewrite zip_with_numbered.
Qed.

End ReadCsv.

(** ** Runs of the script *)

Section Runs.
Variable coord : Type.
Variable transform : cell -> cell -> cell -> result (coord * coord * coord).

Abbreviation world := (world coord).

Lemma read_txt_from_url_world get url (w w' : world) r :
  read_txt_from_url coord get url w = (r, w') ->
  session_state w' = session_state w /\ filter_calls w' = filter_calls w.
Proof.
  unfold read_txt_from_url, bind, display, ret, raise, lift.
  destruct (parse_response _) as [df|[]]; intros H; by simplify_eq.
Qed.

Lemma fetch_section_calls inp (w w' : world) r :
  fetch_section coord inp w = (r, w') -> filter_calls w' = filter_calls w.
Proof.
  unfold fetch_section, bind, session_set, ret. intros H.
  repeat case_match; simplify_eq; try reflexivity;
    match goal with
    | E : read_txt_from_url _ _ _ _ = _ |- _ =>
        apply read_txt_from_url_world in E; destruct E as [_ E]
    end; simpl; congruence.
Qed.

Lemma convert_section_world inp (w w' : world) r :
  convert_section coord transform inp w = (r, w') ->
  session_state w' = session_state w /\ filter_calls w' = filter_calls w.
Proof.
  unfold convert_section, bind, session_has, session_get, lift, display, ret.
  intros H. repeat case_match; by simplify_eq.
Qed.

Lemma date_filter_section_calls inp (w w' : world) r :
  date_filter_section coord inp w = (r, w') ->
  session_state w' !! "data" = session_state w !! "data" /\
  (filter_calls w' = filter_calls w \/
   exists data start n,
     filter_calls w' = (data, start, n) :: filter_calls w /\
     session_state w !! "data" = Some (VFrame data) /\
     within_dates data start).
Proof.
  unfold date_filter_section, bind, session_has, session_get, session_set,
    log_filter_call, lift, display, ret.
  intros H. repeat case_match; simplify_eq; simpl;
    try (split; [reflexivity|by left]).
  all: split; [by rewrite ?lookup_insert_ne|right].
  all: repeat match goal with
         | H : as_frame ?v = Ok _ |- _ =>
             is_var v; destruct v; simpl in *; simplify_eq
         end.
  all: eexists _, _, _; split; [reflexivity|split; [eassumption|]].
  all: by eapply within_dates_input.
Qed.

Lemma script_filter_calls inp (w w' : world) r :
  script coord transform inp w = (r, w') ->
  forall call, In call (filter_calls w') ->
    In call (filter_calls w) \/
    exists data start n,
      call = (data, start, n) /\
      session_state w' !! "data" = Some (VFrame data) /\
      within_dates data start.
Proof.
  unfold script, bind. intros H call Hc.
  destruct (fetch_section coord inp w) as [r1 w1] eqn:E1.
  apply fetch_section_calls in E1.
  destruct r1 as [[]|e]; [|simplify_eq; left; congruence].
  destruct (date_filter_section coord inp w1) as [r2 w2] eqn:E2.
  apply date_filter_section_calls in E2 as [Hd E2].
  assert (session_state w' !! "data" = session_state w1 !! "data" /\
          filter_calls w' = filter_calls w2) as [Hs Hf].
  { destruct r2 as [[]|e]; [|by simplify_eq].
    apply convert_section_world in H as [-> ->]. by rewrite Hd. }
  rewrite Hf in Hc. destruct E2 as [E2|(data & start & n & E2 & Hdata & Hin)].
  - left. congruence.
  - rewrite E2 in Hc. destruct Hc as [<-|Hc]; [|left; congruence].
    right. exists data, start, n. by rewrite Hs.
Qed.

(** After a failed request the session differs only in the flag. *)
Lemma fetch_section_failure inp (w : world) site msg :
  fetch_clicked inp = true ->
  selected_site inp = Some site ->
  read_csv.nonempty site = true ->
  requests_get inp (base_url +:+ site) = Raise (RequestException msg) ->
  read_txt_from_url coord (requests_get inp) (base_url +:+ site) w =
    (Ok None,
     mkworld (session_state w) (screen w ++ [Error ("Error loading data: " +:+ msg)])
       (filter_calls w)) /\
  fetch_section coord inp w =
    (Ok tt,
     mkworld (<["show_date_filter" := VBool false]> (session_state w))
       (screen w ++ [Error ("Error loading data: " +:+ msg)])
       (filter_calls w)).
Proof.
  intros Hc Hs Hn Hr.
  assert (read_txt_from_url coord (requests_get inp) (base_url +:+ site) w =
    (Ok None,
     mkworld (session_state w) (screen w ++ [Error ("Error loading data: " +:+ msg)])
       (filter_calls w))) as Hread.
  { unfold read_txt_from_url, parse_response. rewrite Hr. reflexivity. }
  split; [exact Hread|].
  unfold fetch_section. rewrite Hc, Hs, Hn. unfold bind. rewrite Hread. reflexivity.
Qed.

End Runs.

(** * The claims *)



(** C1.  For every triple (sigmaX, sigmaY, sigmaZ), the uncertainty
    conversion [convert_uncertainties] returns exactly that triple:
    sigmaLatitude = sigmaX, sigmaLongitude = sigmaY, sigmaHeight = sigmaZ. *)
Theorem convert_uncertainties_is_identity :
  forall (A B C : Type) (sigma_x : A) (sigma_y : B) (sigma_z : C),
    convert_uncertainties sigma_x sigma_y sigma_z = (sigma_x, sigma_y, sigma_z).
Proof. reflexivity. Qed.







(** C6.  The conversion makes exactly one converted record of each entry
    of the filtered set, in order; the date of each converted record is
    the date of its entry, unchanged, and so is its label; latitude,
    longitude and height are what the transformation gives for the entry,
    and the sigma columns are those of the entry.  (The transformation is
    pyproj's; the statement holds when it answers for every entry.) *)
Theorem convert_one_record_per_entry :
  forall (coord : Type) (transform : cell -> cell -> cell -> result (coord * coord * coord))
         (data : DataFrame),
    (forall r, In r data -> exists t, transform (X_m r) (Y_m r) (Z_m r) = Ok t) ->
    exists converted_data,
      convert coord transform data = Ok converted_data /\
      length converted_data = length data /\
      map c_Date converted_data = map Date data /\
      Forall2 (converts_to coord transform) data converted_data.
Proof.
  intros coord transform data H.
  destruct (converts_to_exists coord transform data H) as [cs Hcs].
  exists cs. split; [by apply convert_rows|]. split; [|split; [|exact Hcs]].
  - symmetry. eapply Forall2_length. exact Hcs.
  - clear H. induction Hcs as [|r c data cs (_ & Hd & _) _ IH]; [reflexivity|].
    simpl. by rewrite Hd, IH.
Qed.

Lemma convert_one_record_per_entry_witness :
  (forall r, In r [jan1; jan2] -> exists t, origin (X_m r) (Y_m r) (Z_m r) = Ok t) /\
  exists converted_data,
    convert Z origin [jan1; jan2] = Ok converted_data /\
    length converted_data = length [jan1; jan2] /\
    map c_Date converted_data = map Date [jan1; jan2] /\
    Forall2 (converts_to Z origin) [jan1; jan2] converted_data.
Proof.
  assert (forall r, In r [jan1; jan2] -> exists t, origin (X_m r) (Y_m r) (Z_m r) = Ok t)
    as H by (intros r _; eexists; reflexivity).
  split; [exact H|]. exact (convert_one_record_per_entry Z origin [jan1; jan2] H).
Defined.

(** C8.  When the request fails with a request exception,
    [read_txt_from_url] returns None instead of raising, and the fetch
    handler leaves the stored session data untouched: the only change to
    the session state is that 'show_date_filter' is set to False. *)
Theorem fetch_failure_keeps_session_data :
  forall (coord : Type) (inp : inputs) (w : world coord) (site msg : string),
    fetch_clicked inp = true ->
    selected_site inp = Some site ->
    read_csv.nonempty site = true ->
    requests_get inp (base_url +:+ site) = Raise (RequestException msg) ->
    fst (read_txt_from_url coord (requests_get inp) (base_url +:+ site) w) = Ok None /\
    exists w',
      fetch_section coord inp w = (Ok tt, w') /\
      session_state w' = <["show_date_filter" := VBool false]> (session_state w) /\
      session_state w' !! "data" = session_state w !! "data" /\
      session_state w' !! "filtered_data" = session_state w !! "filtered_data".
Proof.
  intros coord inp w site msg Hc Hs Hn Hr.
  destruct (fetch_section_failure coord inp w site msg Hc Hs Hn Hr) as [Hread Hfetch].
  split; [by rewrite Hread|].
  eexists. split; [exact Hfetch|]. simpl.
  split; [reflexivity|]. by rewrite !lookup_insert_ne.
Qed.

Lemma fetch_failure_keeps_session_data_witness :
  fetch_clicked fetch_offline = true /\
  selected_site fetch_offline = Some "ab01" /\
  read_csv.nonempty "ab01" = true /\
  requests_get fetch_offline (base_url +:+ "ab01") =
    Raise (RequestException "503 Server Error") /\
  exists w',
    fetch_section Z fetch_offline january_session = (Ok tt, w') /\
    session_state w' =
      <["show_date_filter" := VBool false]> (session_state january_session) /\
    session_state w' !! "data" = session_state january_session !! "data" /\
    session_state w' !! "filtered_data" =
      session_state january_session !! "filtered_data".
Proof.
  repeat (split; [reflexivity|]).
  exact (proj2 (fetch_failure_keeps_session_data Z fetch_offline january_session
                  "ab01" "503 Server Error" eq_refl eq_refl eq_refl eq_refl)).
Defined.



(** C10.  In every run of the script, each evaluation of the filter gets
    the frame stored in the session and a start date that lies between
    the earliest and the latest date of that frame: the date input is
    bounded by them. *)
Theorem start_date_within_fetched_dates :
  forall (coord : Type) (transform : cell -> cell -> cell -> result (coord * coord * coord))
         (inp : inputs) (w w' : world coord) (r : result unit),
    script coord transform inp w = (r, w') ->
    forall call, In call (filter_calls w') ->
      In call (filter_calls w) \/
      exists data startDate limit,
        call = (data, startDate, limit) /\
        session_state w' !! "data" = Some (VFrame data) /\
        within_dates data startDate.
Proof.
  intros coord transform inp w w' r H call Hc.
  exact (script_filter_calls coord transform inp w w' r H call Hc).
Qed.

Lemma start_date_within_fetched_dates_witness :
  let run := script Z origin show_from_jan2 january_session in
  let call := ([jan1; jan2; jan3], datetime.mkdate 2024 1 2, 10) in
  script Z origin show_from_jan2 january_session = (fst run, snd run) /\
  In call (filter_calls (snd run)) /\
  (In call (filter_calls january_session) \/
   exists data startDate limit,
     call = (data, startDate, limit) /\
     session_state (snd run) !! "data" = Some (VFrame data) /\
     within_dates data startDate).
Proof.
  intros run call.
  assert (script Z origin show_from_jan2 january_session = (fst run, snd run)) as Hrun
    by (unfold run; destruct (script Z origin show_from_jan2 january_session); reflexivity).
  assert (In call (filter_calls (snd run))) as Hcall by (vm_compute; left; reflexivity).
  split; [exact Hrun|]. split; [exact Hcall|].
  exact (start_date_within_fetched_dates Z origin show_from_jan2 january_session
           (snd run) (fst run) Hrun call Hcall).
Defined.

(** C3 (as amended).  The parser names ten columns and reports no
    malformed record: for a plain text (printable ASCII without the
    double quote, blanks, lines ended by LF or CR LF), when every line
    has at most ten whitespace-separated fields and the first two fields
    of every line give a date that a Timestamp can hold, the text is
    accepted whole, one row per line in the order of the lines, and a
    line with fewer than ten fields (eight, say) gives a row whose
    missing trailing columns are NaN. *)
Theorem short_lines_are_accepted :
  forall (text : string) (dates : list string),
    plain text = true ->
    Forall (fun fs => (length fs <= 10)%nat) (read_csv.records text) ->
    Forall2 (fun fs date => line_date fs = Ok date) (read_csv.records text) dates ->
    parse_response (Ok text) = Ok (line_rows 0 (read_csv.records text) dates) /\
    length (line_rows 0 (read_csv.records text) dates) = length (read_csv.records text).
Proof.
  intros text dates _ Hlen Hdates. split; [by apply parse_response_short|].
  generalize 0%nat. induction Hdates as [|fs s recs dates _ _ IH]; intros i; simpl.
  - reflexivity.
  - f_equal. apply IH. by inversion Hlen.
Qed.

Lemma short_lines_are_accepted_witness :
  plain eight_fields = true /\
  Forall (fun fs => (length fs <= 10)%nat) (read_csv.records eight_fields) /\
  Forall2 (fun fs date => line_date fs = Ok date) (read_csv.records eight_fields)
    ["02/29/2024"] /\
  parse_response (Ok eight_fields) =
    Ok (line_rows 0 (read_csv.records eight_fields) ["02/29/2024"]) /\
  length (line_rows 0 (read_csv.records eight_fields) ["02/29/2024"]) =
    length (read_csv.records eight_fields).
Proof.
  assert (read_csv.records eight_fields =
          [["2024"; "60"; "X"; "True"; "1.0"; "2.0"; "3.0"; "0.1"]]) as Hrecs
    by (vm_compute; reflexivity).
  assert (Forall (fun fs => (length fs <= 10)%nat) (read_csv.records eight_fields)) as Hlen
    by (rewrite Hrecs; constructor; [simpl; lia|constructor]).
  assert (Forall2 (fun fs date => line_date fs = Ok date) (read_csv.records eight_fields)
            ["02/29/2024"]) as Hdates
    by (rewrite Hrecs; constructor; [vm_compute; reflexivity|constructor]).
  split; [reflexivity|]. split; [exact Hlen|]. split; [exact Hdates|].
  exact (short_lines_are_accepted eight_fields ["02/29/2024"] eq_refl Hlen Hdates).
Defined.

(** C3, at a line of eight fields: the line is not reported, it is read
    as a row with NaN in 'sigmaY(m)' and 'sigmaZ(m)', and
    [read_txt_from_url] returns the frame. *)
Lemma eight_fields_are_accepted :
  length (read_csv.fields eight_fields) = 8%nat /\
  read_txt_from_url Z (fun _ => Ok eight_fields) base_url january_session =
  (Ok (Some [mkrow (RangeLabel 0) "02/29/2024" (Some "X") (Some "True")
               (Some "1.0") (Some "2.0") (Some "3.0") (Some "0.1") None None]),
   january_session).
Proof. split; vm_compute; reflexivity. Qed.




(** * Further properties *)

(** ** Exceptions of the fetch, and the shape of what is read *)

Section Raises.

Lemma read_csv_raises (text : string) (e : exn) :
  read_csv.read_csv text = Raise e -> e = ParserError.
Proof.
  unfold read_csv.read_csv. destruct (forallb _ _); intros H; by simplify_eq.
Qed.

Lemma new_raises (y m d : Z) (e : exn) : datetime.new y m d = Raise e -> e = ValueError.
Proof. unfold datetime.new. destruct (datetime.valid_fields y m d); intros H; by simplify_eq. Qed.

Lemma fromordinal_raises (n : Z) (e : exn) :
  datetime.fromordinal n = Raise e -> e = ValueError.
Proof.
  unfold datetime.fromordinal. destruct (datetime._ord2ymd n) as [[y m] d].
  apply new_raises.
Qed.

Lemma strptime_Yj_raises (val : string) (e : exn) :
  strptime.strptime_Yj val = Raise e -> e = ValueError.
Proof.
  unfold strptime.strptime_Yj. intros H.
  repeat case_match; simplify_eq; try reflexivity.
  unfold rbind in H. destruct (datetime.new _ 1 1) eqn:E.
  - by apply fromordinal_raises in H.
  - simplify_eq. by apply new_raises in E.
Qed.

Lemma date_entry_raises (y d : Z) (e : exn) : date_entry y d = Raise e -> e = ValueError.
Proof.
  unfold date_entry, rbind.
  destruct (strptime.strptime_Yj _) as [dt|e0] eqn:E.
  - destruct (to_datetime dt) eqn:Et; intros H; simplify_eq.
    by apply to_datetime_raises in Et.
  - intros H; simplify_eq. by apply strptime_Yj_raises in E.
Qed.

Lemma traverse_raises {A B} (f : A -> result B) (l : list A) (e : exn) :
  traverse f l = Raise e -> exists a, In a l /\ f a = Raise e.
Proof.
  induction l as [|a l IH]; simpl; [discriminate|].
  destruct (f a) eqn:Ea.
  - destruct (traverse f l); [discriminate|]. intros H; simplify_eq.
    destruct (IH eq_refl) as (a' & Hin & Ha'). exists a'. split; [by right|assumption].
  - intros H; simplify_eq. exists a. split; [by left|assumption].
Qed.

Lemma date_column_raises raw (e : exn) : date_column raw = Raise e -> e = ValueError.
Proof.
  unfold date_column. intros H. repeat case_match; simplify_eq; try reflexivity.
  apply traverse_raises in H as ([y d] & _ & H). by apply date_entry_raises in H.
Qed.

Lemma parse_response_raises (text : string) (e : exn) :
  parse_response (Ok text) = Raise e -> e = ParserError \/ e = ValueError.
Proof.
  unfold parse_response, rbind. intros H.
  destruct (read_csv.read_csv text) eqn:E1.
  - destruct (date_column _) eqn:E2; simplify_eq. right. by apply date_column_raises in E2.
  - simplify_eq. left. by apply read_csv_raises in E1.
Qed.

End Raises.

Section Parsing.
Import read_csv.

Lemma length_pad (width : nat) (fs : list string) :
  (length fs <= width)%nat -> length (pad width fs) = width.
Proof. intros H. unfold pad. rewrite length_app, length_map, repeat_length. lia. Qed.

Lemma expected_fields_ge (recs : list (list string)) : (10 <= expected_fields recs)%nat.
Proof.
  unfold expected_fields. destruct recs; change (length column_names) with 10%nat; lia.
Qed.

Lemma labelled_cells (lead i : nat) (cs : list cell) :
  length (snd (labelled lead i cs)) = (length cs - lead)%nat.
Proof.
  unfold labelled. destruct lead; simpl; [lia|].
  destruct cs; simpl; [reflexivity|]. by rewrite length_drop.
Qed.

Lemma forallb_false {A} (f : A -> bool) (l : list A) :
  forallb f l = false <-> Exists (fun x => f x = false) l.
Proof.
  induction l as [|a l IH]; simpl.
  - split; [discriminate|]. intros H. inversion H.
  - rewrite andb_false_iff, IH. split.
    + intros [H|H]; [by left|by right].
    + intros H. inversion H; subst; [by left|by right].
Qed.

Lemma read_csv_wide (text : string) :
  read_csv text = Raise ParserError <->
  Exists (fun fs => (expected_fields (records text) < length fs)%nat) (records text).
Proof.
  unfold read_csv.
  destruct (forallb _ (records text)) eqn:E.
  - split; [discriminate|]. intros H. exfalso.
    rewrite forallb_forall in E. apply Exists_exists in H as (fs & Hin & Hw).
    specialize (E fs (proj1 (list_elem_of_In _ _) Hin)).
    apply Nat.leb_le in E. lia.
  - split; [|reflexivity]. intros _. apply forallb_false in E.
    eapply Exists_impl; [exact E|]. intros fs Hfs. simpl in Hfs.
    by apply Nat.leb_gt.
Qed.

Lemma read_csv_cells (text : string) raw :
  read_csv text = Ok raw ->
  length raw = length (records text) /\
  Forall (fun r => length (snd r) = 10%nat) raw.
Proof.
  unfold read_csv. destruct (forallb _ (records text)) eqn:E; [|discriminate].
  intros H; simplify_eq. rewrite forallb_forall in E.
  pose proof (expected_fields_ge (records text)) as Hw.
  set (width := expected_fields (records text)) in *.
  split; [by rewrite length_imap, length_map|].
  apply Forall_forall. intros r Hr.
  apply list_elem_of_lookup in Hr as [i Hi].
  rewrite list_lookup_imap in Hi.
  destruct (map (pad width) (records text) !! i) as [cs|] eqn:Ecs; [|discriminate].
  simpl in Hi. simplify_eq.
  apply list_elem_of_lookup_2, list_elem_of_In, in_map_iff in Ecs as (fs & <- & Hfs).
  rewrite labelled_cells, length_pad by (apply Nat.leb_le, E, Hfs).
  change (length column_names) with 10%nat. lia.
Qed.

Lemma int64_column_fields (k : nat) (recs : list (list string)) :
  forall i ys,
    int64_column (map (col k) (numbered i (map (pad 10) recs))) = Some ys ->
    Forall (fun fs => is_Some (field k fs ≫= int_literal)) recs.
Proof.
  unfold int64_column.
  induction recs as [|fs recs IH]; intros i ys H; [constructor|].
  apply mapM_Some_1 in H. cbn [map numbered] in H.
  inversion H as [|c y cs ys' Hc Hcs]; subst.
  rewrite col_pair, nth_pad in Hc. constructor; [by rewrite Hc|].
  apply (IH (S i) ys'). by apply mapM_Some_2.
Qed.

Lemma date_column_undated (recs : list (list string)) (i : nat) :
  Exists undated_line recs ->
  date_column (numbered i (map (pad 10) recs)) = Raise ValueError.
Proof.
  intros H. unfold date_column.
  destruct (int64_column (map (col 0) _)) as [ys|] eqn:E0; [|reflexivity].
  destruct (int64_column (map (col 1) _)) as [ds|] eqn:E1; [|reflexivity].
  exfalso. apply int64_column_fields in E0, E1.
  apply Exists_exists in H as (fs & Hin & Hfs).
  rewrite Forall_forall in E0, E1.
  specialize (E0 fs Hin). specialize (E1 fs Hin).
  destruct Hfs as [Hfs|Hfs]; rewrite Hfs in *; by inversion_clear E0 + inversion_clear E1.
Qed.

Lemma digit_is_no_sign (c : ascii) (s : string) :
  is_digit c = true ->
  int_literal (String c s) =
  (if all_digits s
   then (let v := int_digits 0 (String c s) in
         if (- 2 ^ 63 <=? v) && (v <? 2 ^ 63) then Some v else None)
   else None).
Proof.
  intros Hc. unfold int_literal.
  destruct c as [[] [] [] [] [] [] [] []]; try discriminate Hc; reflexivity.
Qed.

Lemma int_literal_zero (s : string) :
  nonempty s = true -> all_digits s = true ->
  int_literal (String "0" s) = int_literal s.
Proof.
  intros Hn Hd. destruct s as [|c s]; [discriminate|].
  simpl in Hd. apply andb_true_iff in Hd as [Hc Hs].
  rewrite (digit_is_no_sign "0") by reflexivity.
  rewrite (digit_is_no_sign c s Hc).
  cbn [all_digits]. rewrite Hc, Hs. reflexivity.
Qed.

End Parsing.

(** ** The filter on a frame whose dates parse *)

Section FilterShape.

Lemma traverse_Forall2 {A B} (f : A -> result B) (l : list A) (k : list B) :
  traverse f l = Ok k <-> Forall2 (fun a b => f a = Ok b) l k.
Proof.
  revert k. induction l as [|a l IH]; intros k; simpl.
  - split; [intros H; simplify_eq; constructor|intros H; by inversion H].
  - destruct (f a) as [b|e] eqn:Ea.
    + destruct (traverse f l) as [bs|e] eqn:El.
      * split; [intros H; simplify_eq; constructor; [assumption|by apply IH]|].
        intros H. inversion H; subst. f_equal. f_equal; [congruence|].
        assert (Ok bs = Ok l') as Hl by (by apply IH). by simplify_eq.
      * split; [discriminate|]. intros H. inversion H; subst.
        assert (Raise e = Ok l') as Hl by (by apply IH). discriminate.
    + split; [discriminate|]. intros H. inversion H; subst. congruence.
Qed.

Lemma to_datetime_Date_dated (data : DataFrame) (dates : list datetime.date) :
  to_datetime_Date data = Ok dates <-> Forall2 dated data dates.
Proof. unfold to_datetime_Date. apply traverse_Forall2. Qed.

Lemma dated_range (r : row) (d : datetime.date) :
  dated r d ->
  datetime.toordinal Timestamp_min <= datetime.toordinal d <= datetime.toordinal Timestamp_max.
Proof.
  unfold dated, rbind. destruct (strptime.strptime_mdY (Date r)) as [dt|]; [|discriminate].
  intros H. by apply to_datetime_Ok in H as [-> H].
Qed.

Lemma to_datetime_Date_range (data : DataFrame) (dates : list datetime.date) :
  to_datetime_Date data = Ok dates ->
  Forall (fun d => datetime.toordinal Timestamp_min <= datetime.toordinal d
                   <= datetime.toordinal Timestamp_max) dates.
Proof.
  intros H. apply to_datetime_Date_dated in H.
  induction H as [|r d data dates Hd _ IH]; constructor; [|assumption].
  by eapply dated_range.
Qed.

Lemma show_data_parsed (data : DataFrame) (dates : list datetime.date)
    (start : datetime.date) (n : Z) :
  to_datetime_Date data = Ok dates ->
  to_datetime start = Ok start ->
  show_data data start n =
  Ok (head n (boolean_index data (map (fun d => Timestamp_le start d) dates))).
Proof. intros H Hs. unfold show_data. by rewrite H, Hs. Qed.

Lemma strptime_mdY_raises (val : string) (e : exn) :
  strptime.strptime_mdY val = Raise e -> e = ValueError.
Proof.
  unfold strptime.strptime_mdY. intros H.
  repeat case_match; simplify_eq; try reflexivity. by apply new_raises in H.
Qed.

Lemma to_datetime_Date_raises (data : DataFrame) (e : exn) :
  to_datetime_Date data = Raise e -> e = ValueError.
Proof.
  unfold to_datetime_Date. intros H.
  apply traverse_raises in H as (r & _ & H). unfold rbind in H.
  destruct (strptime.strptime_mdY (Date r)) as [dt|e1] eqn:Ep.
  - by apply to_datetime_raises in H.
  - simplify_eq. by apply strptime_mdY_raises in Ep.
Qed.

Lemma show_data_raises (data : DataFrame) (start : datetime.date) (n : Z) (e : exn) :
  show_data data start n = Raise e -> e = ValueError.
Proof.
  unfold show_data, rbind.
  destruct (to_datetime_Date data) as [dates|e0] eqn:E.
  - destruct (to_datetime start) eqn:Es; [discriminate|].
    intros H. simplify_eq. by apply to_datetime_raises in Es.
  - intros H. simplify_eq. by apply to_datetime_Date_raises in E.
Qed.

Lemma head_length (n : Z) (data : DataFrame) :
  0 <= n -> (length (head n data) <= Z.to_nat n)%nat.
Proof.
  intros H. unfold head. destruct (Z.leb_spec 0 n); [|lia].
  rewrite length_take. lia.
Qed.


End FilterShape.

(** ** From the lines to the session *)

Section Lines.
Import datetime strptime read_csv.

Lemma dated_line_date (fs : list string) :
  dated_line fs ->
  exists dt, timestamp_date dt /\ line_date fs = Ok (strftime_mdY dt).
Proof.
  intros (ytok & dtok & rest & y & d & -> & Hy & Hd & Hyr & Hdoy).
  destruct (date_entry_in_year y d Hyr Hdoy) as (dt & He & Hv & Hyear & _).
  exists dt. split; [split; [assumption|by rewrite Hyear]|].
  unfold line_date. by rewrite Hy, Hd.
Qed.

Lemma dated_lines_records (recs : list (list string)) :
  Forall dated_line recs ->
  exists dts, Forall timestamp_date dts /\
    Forall2 (fun fs date => line_date fs = Ok date) recs (map strftime_mdY dts).
Proof.
  induction 1 as [|fs recs Hfs _ (dts & Hts & Hds)].
  - exists []. split; constructor.
  - destruct (dated_line_date fs Hfs) as (dt & Ht & Hd).
    exists (dt :: dts). split; constructor; assumption.
Qed.

Lemma line_rows_written (recs : list (list string)) :
  forall (dts : list date) (i : nat),
    length recs = length dts ->
    Forall timestamp_date dts ->
    exists records,
      Forall written_from records /\
      map fst records = dts /\
      map snd records = line_rows i recs (map strftime_mdY dts).
Proof.
  induction recs as [|fs recs IH]; intros [|dt dts] i Hlen Hts; try discriminate.
  - exists []. split; [constructor|split; reflexivity].
  - inversion Hts; subst. simpl in Hlen.
    destruct (IH dts (S i)) as (records & Hw & Hf & Hs); [lia|assumption|].
    exists ((dt, line_row i fs (strftime_mdY dt)) :: records).
    split; [constructor; [split; [assumption|reflexivity]|assumption]|].
    simpl. by rewrite Hf, Hs.
Qed.

Lemma length_line_rows (recs : list (list string)) :
  forall (dates : list string) (i : nat),
    length recs = length dates -> length (line_rows i recs dates) = length recs.
Proof.
  induction recs as [|fs recs IH]; intros [|d dates] i H; try discriminate; simpl;
    [reflexivity|].
  rewrite IH; [reflexivity|simpl in H; lia].
Qed.

(** A text of dated lines is read as a frame of rows written from
    dates, one per line. *)
Lemma parse_response_dated (text : string) :
  Forall (fun fs => (length fs <= 10)%nat) (records text) ->
  Forall dated_line (records text) ->
  exists recs,
    Forall written_from recs /\
    length recs = length (records text) /\
    parse_response (Ok text) = Ok (map snd recs).
Proof.
  intros Hlen Hd.
  destruct (dated_lines_records _ Hd) as (dts & Hts & Hds).
  pose proof (Forall2_length _ _ _ Hds) as Hl. rewrite length_map in Hl.
  destruct (line_rows_written (records text) dts 0 Hl Hts) as (recs & Hw & Hf & Hs).
  exists recs. split; [assumption|].
  split; [by rewrite <- (length_map snd), Hs, length_line_rows by (by rewrite length_map)|].
  rewrite Hs. by apply parse_response_short.
Qed.

End Lines.

Section Shown.
Import datetime.

Lemma extreme_nonempty (before : date -> date -> bool) (ds : list date) :
  ds <> [] -> exists m, extreme before ds = Ok m.
Proof.
  destruct ds as [|d ds]; [done|]. intros _. simpl.
  destruct (extreme before ds); eauto.
Qed.

Lemma min_le_max (ds : list date) (lo hi : date) :
  min_ ds = Ok lo -> max_ ds = Ok hi -> toordinal lo <= toordinal hi.
Proof.
  intros Hlo Hhi. apply min_spec in Hlo as [_ Hlo]. apply max_spec in Hhi as [Hin _].
  by apply Hlo.
Qed.

Lemma boolean_index_nonempty (start : date) (data : DataFrame) :
  forall dates, Forall2 dated data dates ->
    Exists (fun d => toordinal start <= toordinal d) dates ->
    boolean_index data (map (fun d => Timestamp_le start d) dates) <> [].
Proof.
  induction data as [|r data IH]; intros dates H Hex; inversion H; subst;
    [inversion Hex|].
  simpl. unfold Timestamp_le at 1.
  destruct (Z.leb_spec (toordinal start) (toordinal y)); [discriminate|].
  apply IH; [assumption|]. inversion Hex; subst; [lia|assumption].
Qed.

Lemma head_nonempty (n : Z) (data : DataFrame) :
  0 < n -> data <> [] -> head n data <> [].
Proof.
  intros Hn Hd. rewrite head_positive by assumption.
  destruct data as [|r data]; [done|].
  destruct (Z.to_nat n) eqn:E; [lia|discriminate].
Qed.

(** The date input gives a day a Timestamp can hold when its bounds are
    those of a column that was read. *)
Lemma date_input_timestamp (data : DataFrame) (dates : list date) (lo hi : date)
    (pick : option date) :
  to_datetime_Date data = Ok dates -> min_ dates = Ok lo -> max_ dates = Ok hi ->
  to_datetime (date_input lo hi lo pick) = Ok (date_input lo hi lo pick).
Proof.
  intros Hd Hlo Hhi.
  pose proof (date_input_range lo hi pick (min_le_max _ _ _ Hlo Hhi)) as Hr.
  apply to_datetime_Date_range in Hd. rewrite Forall_forall in Hd.
  apply min_spec in Hlo as [Hlo _]. apply max_spec in Hhi as [Hhi _].
  apply list_elem_of_In, Hd in Hlo. apply list_elem_of_In, Hd in Hhi.
  apply to_datetime_bounds. lia.
Qed.

Lemma selectbox_rows_cases (pick : nat) :
  selectbox_rows pick = 10 \/ selectbox_rows pick = 50 \/ selectbox_rows pick = 100.
Proof.
  unfold selectbox_rows. destruct pick as [|[|[|pick]]]; simpl; auto.
  destruct pick; auto.
Qed.

End Shown.

Section Handlers.
Variable coord : Type.
Variable transform : cell -> cell -> cell -> result (coord * coord * coord).

Abbreviation world := (world coord).

(** The filter section on a session whose flag is True and whose frame
    has dates. *)
Lemma date_filter_section_on inp (w : world) data dates lo hi :
  session_state w !! "show_date_filter" = Some (VBool true) ->
  session_state w !! "data" = Some (VFrame data) ->
  to_datetime_Date data = Ok dates ->
  min_ dates = Ok lo -> max_ dates = Ok hi ->
  date_filter_section coord inp w =
  (if show_clicked inp then
     let start := date_input lo hi lo (date_pick inp) in
     let n := selectbox_rows (rows_pick inp) in
     let out := head n (boolean_index data (map (fun d => Timestamp_le start d) dates)) in
     (Ok tt, mkworld (<["filtered_data" := VFrame out]> (session_state w))
               (screen w ++ [Table out]) ((data, start, n) :: filter_calls w))
   else (Ok tt, w)).
Proof.
  intros Hflag Hdata Hdates Hlo Hhi.
  unfold date_filter_section, bind, session_has, session_get, session_set,
    log_filter_call, lift, display, ret.
  rewrite bool_decide_eq_true_2 by (rewrite Hflag; eauto).
  rewrite Hflag. simpl. rewrite Hdata. simpl. rewrite Hdates, Hlo, Hhi.
  destruct (show_clicked inp); [|reflexivity].
  simpl. rewrite Hdata. simpl.
  rewrite (show_data_parsed data dates)
    by (assumption || by eapply date_input_timestamp). reflexivity.
Qed.

Lemma fetch_section_success inp (w : world) site text df :
  fetch_clicked inp = true ->
  selected_site inp = Some site ->
  read_csv.nonempty site = true ->
  requests_get inp (base_url +:+ site) = Ok text ->
  parse_response (Ok text) = Ok df ->
  fetch_section coord inp w =
  (Ok tt,
   mkworld (<["show_date_filter" := VBool true]> (<["data" := VFrame df]> (session_state w)))
     (screen w) (filter_calls w)).
Proof.
  intros Hc Hs Hn Hr Hp.
  unfold fetch_section. rewrite Hc, Hs, Hn. unfold bind, read_txt_from_url.
  rewrite Hr, Hp. reflexivity.
Qed.

Lemma convert_section_on inp (w : world) data :
  session_state w !! "filtered_data" = Some (VFrame data) ->
  convert_clicked inp = true ->
  convert_section coord transform inp w =
  match convert coord transform data with
  | Ok cs => (Ok tt, mkworld (session_state w) (screen w ++ [Converted cs]) (filter_calls w))
  | Raise e => (Raise e, w)
  end.
Proof.
  intros Hf Hc.
  unfold convert_section, bind, session_has, session_get, lift, display, ret.
  rewrite bool_decide_eq_true_2 by (rewrite Hf; eauto).
  rewrite Hc, Hf. simpl.
  by destruct (convert coord transform data).
Qed.

End Handlers.

Section ConversionFailure.
Variable coord : Type.
Variable transform : cell -> cell -> cell -> result (coord * coord * coord).

Lemma convert_loop_raises (data : DataFrame) :
  forall (acc : columns coord) (e : exn),
    convert_loop coord transform data acc = Raise e ->
    exists (before : DataFrame) (r : row) (after : DataFrame),
      data = (before ++ r :: after)%list /\ Forall (transformed transform) before /\
      transform (X_m r) (Y_m r) (Z_m r) = Raise e.
Proof.
  induction data as [|r data IH]; intros acc e H; [discriminate|].
  simpl in H. unfold convert_xyz_to_lat_lon_height in H.
  destruct (transform (X_m r) (Y_m r) (Z_m r)) as [[[lon lat] h]|e'] eqn:Et; simpl in H.
  - apply IH in H as (before & r' & after & -> & Hb & Hr).
    exists (r :: before), r', after. split; [reflexivity|].
    split; [constructor; [by eexists|assumption]|assumption].
  - simplify_eq. exists [], r, data. split; [reflexivity|]. split; [constructor|assumption].
Qed.

Lemma convert_loop_ok (data : DataFrame) :
  forall (acc cols : columns coord),
    convert_loop coord transform data acc = Ok cols -> Forall (transformed transform) data.
Proof.
  induction data as [|r data IH]; intros acc cols H; [constructor|].
  simpl in H. unfold convert_xyz_to_lat_lon_height in H.
  destruct (transform (X_m r) (Y_m r) (Z_m r)) as [[[lon lat] h]|e'] eqn:Et; simpl in H;
    [|discriminate].
  constructor; [by eexists|]. by eapply IH.
Qed.

Lemma convert_transformed (data : DataFrame) :
  Forall (transformed transform) data -> exists cs, convert coord transform data = Ok cs.
Proof.
  intros H. destruct (converts_to_exists coord transform data) as [cs Hcs].
  - intros r Hr. rewrite Forall_forall in H. apply H. by apply list_elem_of_In.
  - exists cs. by apply convert_rows.
Qed.

Lemma convert_raises (data : DataFrame) (e : exn) :
  convert coord transform data = Raise e <->
  exists (before : DataFrame) (r : row) (after : DataFrame),
    data = (before ++ r :: after)%list /\ Forall (transformed transform) before /\
    transform (X_m r) (Y_m r) (Z_m r) = Raise e.
Proof.
  split.
  - intros H. unfold convert in H.
    destruct (convert_loop coord transform data (no_columns coord)) as [cols|e'] eqn:El.
    + destruct (convert_transformed data (convert_loop_ok _ _ _ El)) as [cs Hcs].
      unfold convert in Hcs. rewrite El in Hcs. simpl in H, Hcs. congruence.
    + simpl in H. simplify_eq. by eapply convert_loop_raises.
  - intros (before & r & after & -> & Hb & Hr). unfold convert.
    assert (forall acc, convert_loop coord transform (before ++ r :: after)%list acc = Raise e)
      as ->; [|reflexivity].
    induction Hb as [|r' before [[[lon lat] h] Ht] _ IH]; intros acc; simpl;
      unfold convert_xyz_to_lat_lon_height.
    + by rewrite Hr.
    + rewrite Ht. simpl. apply IH.
Qed.

End ConversionFailure.

Section Invariant.
Variable coord : Type.
Variable transform : cell -> cell -> cell -> result (coord * coord * coord).

Abbreviation world := (world coord).

Lemma extreme_raises before (ds : list datetime.date) (e : exn) :
  extreme before ds = Raise e -> e = ValueError.
Proof.
  destruct ds as [|d ds]; simpl; [intros H; by simplify_eq|].
  destruct (extreme before ds); discriminate.
Qed.

Lemma session_ok_stored (w : world) (df : DataFrame) :
  session_ok w ->
  session_ok (mkworld (<["show_date_filter" := VBool true]>
                         (<["data" := VFrame df]> (session_state w)))
                (screen w) (filter_calls w)).
Proof.
  intros (Hflag & Hdata & Hfil). unfold session_ok. cbn [session_state].
  split; [|split].
  - intros v. rewrite lookup_insert_eq. intros H; simplify_eq. eauto.
  - intros _. exists df. rewrite lookup_insert_ne by done. by rewrite lookup_insert_eq.
  - intros v. rewrite !lookup_insert_ne by done. apply Hfil.
Qed.

Lemma session_ok_hidden (w : world) (scr : list (shown coord)) :
  session_ok w ->
  session_ok (mkworld (<["show_date_filter" := VBool false]> (session_state w))
                scr (filter_calls w)).
Proof.
  intros (Hflag & Hdata & Hfil). unfold session_ok. cbn [session_state].
  split; [|split].
  - intros v. rewrite lookup_insert_eq. intros H; simplify_eq. eauto.
  - rewrite lookup_insert_eq. discriminate.
  - intros v. rewrite !lookup_insert_ne by done. apply Hfil.
Qed.

Lemma session_ok_filtered (w : world) (out : DataFrame) (scr : list (shown coord))
    (calls : list (DataFrame * datetime.date * Z)) :
  session_ok w ->
  session_ok (mkworld (<["filtered_data" := VFrame out]> (session_state w)) scr calls).
Proof.
  intros (Hflag & Hdata & Hfil). unfold session_ok. cbn [session_state].
  split; [|split].
  - intros v. rewrite lookup_insert_ne by done. apply Hflag.
  - rewrite !lookup_insert_ne by done. apply Hdata.
  - intros v. rewrite lookup_insert_eq. intros H; simplify_eq. eauto.
Qed.

Lemma session_ok_state (w w' : world) :
  session_state w' = session_state w -> session_ok w -> session_ok w'.
Proof. unfold session_ok. by intros ->. Qed.

Lemma fetch_section_ok inp (w w' : world) r :
  session_ok w -> fetch_section coord inp w = (r, w') ->
  session_ok w' /\ forall e, r = Raise e -> raised_by transform inp e.
Proof.
  intros Hok.
  unfold fetch_section, bind, read_txt_from_url, session_set, display, ret, raise, lift.
  destruct (fetch_clicked inp); [|intros H; simplify_eq; split; [assumption|done]].
  destruct (selected_site inp) as [site|];
    [|intros H; simplify_eq; split; [assumption|done]].
  destruct (read_csv.nonempty site); [|intros H; simplify_eq; split; [assumption|done]].
  destruct (requests_get inp (base_url +:+ site)) as [text|e0] eqn:Er.
  - destruct (parse_response (Ok text)) as [df|e1] eqn:Ep.
    + intros H. cbn in H. simplify_eq. split; [by apply session_ok_stored|done].
    + destruct (parse_response_raises text e1 Ep) as [-> | ->];
        intros H; cbn in H; simplify_eq; (split; [assumption|]);
        intros e He; simplify_eq; unfold raised_by; auto.
  - unfold parse_response. cbn [rbind].
    destruct e0; intros H; cbn in H; simplify_eq;
      try (split; [assumption|]; intros e He; simplify_eq; left; eauto).
    split; [by apply session_ok_hidden|done].
Qed.

Lemma date_filter_section_ok inp (w w' : world) r :
  session_ok w -> date_filter_section coord inp w = (r, w') ->
  session_ok w' /\ forall e, r = Raise e -> e = ValueError.
Proof.
  intros Hok. pose proof Hok as (Hflag & Hdata & Hfil).
  unfold date_filter_section, bind, session_has, session_get, session_set,
    log_filter_call, lift, display, ret.
  destruct (session_state w !! "show_date_filter") as [v|] eqn:Ev.
  2:{ rewrite bool_decide_eq_false_2 by (intros [? ?]; discriminate).
      intros H; simplify_eq; split; [assumption|done]. }
  rewrite bool_decide_eq_true_2 by eauto.
  destruct (Hflag v eq_refl) as [b ->]. simpl. rewrite Ev. simpl.
  destruct b; [|intros H; simplify_eq; split; [assumption|done]].
  destruct (Hdata eq_refl) as [data Hd]. rewrite Hd. simpl.
  destruct (to_datetime_Date data) as [dates|e0] eqn:Edates.
  2:{ intros H; simplify_eq. split; [assumption|].
      intros e He; simplify_eq. by apply to_datetime_Date_raises in Edates. }
  destruct (min_ dates) as [lo|e0] eqn:Elo.
  2:{ intros H; simplify_eq. split; [assumption|].
      intros e He; simplify_eq. by apply extreme_raises in Elo. }
  destruct (max_ dates) as [hi|e0] eqn:Ehi.
  2:{ intros H; simplify_eq. split; [assumption|].
      intros e He; simplify_eq. by apply extreme_raises in Ehi. }
  destruct (show_clicked inp); [|intros H; simplify_eq; split; [assumption|done]].
  rewrite Hd. simpl.
  rewrite (show_data_parsed data dates)
    by (assumption || by eapply date_input_timestamp).
  intros H; simplify_eq. split; [by apply session_ok_filtered|done].
Qed.

Lemma convert_section_ok inp (w w' : world) r :
  session_ok w -> convert_section coord transform inp w = (r, w') ->
  session_ok w' /\
  forall e, r = Raise e -> exists x y z, transform x y z = Raise e.
Proof.
  intros Hok. pose proof Hok as (Hflag & Hdata & Hfil).
  unfold convert_section, bind, session_has, session_get, lift, display, ret.
  destruct (session_state w !! "filtered_data") as [v|] eqn:Ev.
  2:{ rewrite bool_decide_eq_false_2 by (intros [? ?]; discriminate).
      intros H; simplify_eq; split; [assumption|done]. }
  rewrite bool_decide_eq_true_2 by eauto.
  destruct (Hfil v eq_refl) as [data ->].
  destruct (convert_clicked inp); [|intros H; simplify_eq; split; [assumption|done]].
  rewrite Ev. simpl.
  destruct (convert coord transform data) as [cs|e0] eqn:Ec.
  - intros H; simplify_eq. split; [by eapply session_ok_state|done].
  - intros H; simplify_eq. split; [assumption|]. intros e He; simplify_eq.
    apply convert_raises in Ec as (before & r & after & _ & _ & Hr). eauto.
Qed.

Lemma script_ok inp (w w' : world) r :
  session_ok w -> script coord transform inp w = (r, w') ->
  session_ok w' /\ forall e, r = Raise e -> raised_by transform inp e.
Proof.
  intros Hok. unfold script, bind.
  destruct (fetch_section coord inp w) as [r1 w1] eqn:E1.
  apply fetch_section_ok in E1 as [Hok1 He1]; [|assumption].
  destruct r1 as [[]|e1]; [|intros H; simplify_eq; split; [assumption|auto]].
  destruct (date_filter_section coord inp w1) as [r2 w2] eqn:E2.
  apply date_filter_section_ok in E2 as [Hok2 He2]; [|assumption].
  destruct r2 as [[]|e2].
  2:{ intros H; simplify_eq. split; [assumption|].
      intros e He. unfold raised_by. right; right; right. by apply He2. }
  intros H. apply convert_section_ok in H as [Hok3 He3]; [|assumption].
  split; [assumption|]. intros e He. unfold raised_by. right; left. by apply He3.
Qed.

End Invariant.

(** ** Clicks *)

Section Clicks.
Variable coord : Type.
Variable transform : cell -> cell -> cell -> result (coord * coord * coord).

Abbreviation world := (world coord).

Lemma date_filter_section_written inp (w : world) (records : list (datetime.date * row)) :
  records <> [] ->
  Forall written_from records ->
  session_state w !! "show_date_filter" = Some (VBool true) ->
  session_state w !! "data" = Some (VFrame (map snd records)) ->
  exists w',
    date_filter_section coord inp w = (Ok tt, w') /\
    (show_clicked inp = false -> w' = w) /\
    (show_clicked inp = true ->
     exists start out,
       shows inp w w' (map snd records) out start /\
       out <> [] /\
       (length out <= Z.to_nat (selectbox_rows (rows_pick inp)) <= 100)%nat).
Proof.
  intros Hne Hw Hflag Hdata.
  pose proof (to_datetime_Date_written records Hw) as Hdates.
  assert (map fst records <> []) as Hne' by (by destruct records).
  destruct (extreme_nonempty Timestamp_le _ Hne') as [lo Hlo].
  destruct (extreme_nonempty (fun a b => Timestamp_le b a) _ Hne') as [hi Hhi].
  fold (min_ (map fst records)) in Hlo. fold (max_ (map fst records)) in Hhi.
  rewrite (date_filter_section_on coord inp w _ _ lo hi Hflag Hdata Hdates Hlo Hhi).
  destruct (show_clicked inp); [|exists w; split; [reflexivity|split; [done|discriminate]]].
  eexists. split; [reflexivity|]. split; [discriminate|]. intros _.
  set (start := date_input lo hi lo (date_pick inp)).
  set (n := selectbox_rows (rows_pick inp)).
  assert (0 < n <= 100) as Hn
    by (destruct (selectbox_rows_cases (rows_pick inp)) as [H|[H|H]]; unfold n; lia).
  exists start, (head n (boolean_index (map snd records)
                           (map (fun d => Timestamp_le start d) (map fst records)))).
  split; [split; [|reflexivity]|].
  { apply show_data_parsed; [assumption|]. by eapply date_input_timestamp. }
  split.
  - apply head_nonempty; [lia|].
    apply boolean_index_nonempty; [by apply to_datetime_Date_dated|].
    pose proof (date_input_range lo hi (date_pick inp)
                  (min_le_max _ _ _ Hlo Hhi)) as Hr.
    apply max_spec in Hhi as [Hin _].
    apply Exists_exists. exists hi. split; [by apply list_elem_of_In|]. apply Hr.
  - pose proof (head_length n (boolean_index (map snd records)
       (map (fun d => Timestamp_le start d) (map fst records)))). lia.
Qed.

Lemma script_idle inp (w w' : world) r :
  fetch_clicked inp = false -> show_clicked inp = false -> convert_clicked inp = false ->
  script coord transform inp w = (r, w') -> w' = w.
Proof.
  intros Hf Hs Hc.
  unfold script, fetch_section, date_filter_section, convert_section, bind,
    session_has, session_get, lift, ret.
  rewrite Hf, Hs, Hc. intros H.
  repeat case_match; by simplify_eq.
Qed.

Lemma convert_section_effect inp (w w' : world) r :
  convert_section coord transform inp w = (r, w') ->
  session_state w' = session_state w /\
  filter_calls w' = filter_calls w /\
  (screen w' = screen w \/
   exists data cs,
     r = Ok tt /\ convert_clicked inp = true /\
     session_state w !! "filtered_data" = Some (VFrame data) /\
     convert coord transform data = Ok cs /\
     screen w' = (screen w ++ [Converted cs])%list).
Proof.
  unfold convert_section, bind, session_has, session_get, lift, display, ret.
  intros H. repeat case_match; simplify_eq; simpl; try by auto.
  repeat match goal with
         | H : as_frame ?v = Ok _ |- _ =>
             is_var v; destruct v; simpl in *; simplify_eq
         end.
  split; [reflexivity|]. split; [reflexivity|]. right. eauto 10.
Qed.

End Clicks.

Lemma two_days_records :
  read_csv.records two_days =
  [["2024"; "60"; "X"; "True"; "1.0"; "2.0"; "3.0"; "0.1"; "0.2"; "0.3"];
   ["2024"; "61"; "X"; "True"; "1.0"; "2.0"; "3.0"; "0.1"; "0.2"; "0.3"]].
Proof. vm_compute. reflexivity. Qed.

Lemma two_days_dated : Forall dated_line (read_csv.records two_days).
Proof.
  rewrite two_days_records.
  repeat constructor;
    eexists _, _, _, _, _; (split; [reflexivity|]);
    (split; [vm_compute; reflexivity|]); (split; [vm_compute; reflexivity|]);
    unfold first_year, last_year; (split; [lia|]);
    (split; [lia|]); vm_compute; discriminate.
Qed.

Lemma january_session_ok : session_ok january_session.
Proof.
  unfold session_ok, january_session. cbn [session_state].
  split; [|split].
  - intros v. rewrite lookup_insert_eq. intros H; simplify_eq. eauto.
  - intros _. eexists. rewrite lookup_insert_ne by done. by rewrite lookup_insert_eq.
  - intros v. rewrite !lookup_insert_ne by done. rewrite lookup_empty. discriminate.
Qed.

Section Hidden.
Variable coord : Type.

Lemma date_filter_section_hidden inp (w : world coord) :
  session_state w !! "show_date_filter" = Some (VBool false) ->
  date_filter_section coord inp w = (Ok tt, w).
Proof.
  intros Hflag.
  unfold date_filter_section, bind, session_has, session_get, lift, ret.
  rewrite bool_decide_eq_true_2 by (rewrite Hflag; eauto).
  rewrite Hflag. reflexivity.
Qed.

End Hidden.

(** ** The properties X1 .. X16 *)

(** X1.  [read_txt_from_url] returns None exactly when the request
    raised a request exception: a text that was received never gives
    None, and any other exception of the request is not caught. *)
Theorem none_only_on_request_failure :
  forall (coord : Type) (requests_get : string -> result string) (url : string)
         (w : world coord),
    fst (read_txt_from_url coord requests_get url w) = Ok None <->
    exists msg, requests_get url = Raise (RequestException msg).
Proof.
  intros coord get url w. unfold read_txt_from_url. split.
  - destruct (get url) as [text|e] eqn:E.
    + destruct (parse_response (Ok text)) as [df|e] eqn:Ep; [discriminate|].
      destruct (parse_response_raises text e Ep) as [-> | ->]; discriminate.
    + destruct e; try discriminate. eauto.
  - intros [msg ->]. reflexivity.
Qed.

(** X2.  Once a text is received, [read_txt_from_url] either returns the
    frame or lets a ParserError or a ValueError of pandas escape; in
    each case it shows nothing and leaves the session as it was. *)
Theorem received_text_parses_or_raises :
  forall (coord : Type) (requests_get : string -> result string) (url text : string)
         (w : world coord),
    requests_get url = Ok text ->
    (exists df, parse_response (Ok text) = Ok df /\
                read_txt_from_url coord requests_get url w = (Ok (Some df), w)) \/
    read_txt_from_url coord requests_get url w = (Raise ParserError, w) \/
    read_txt_from_url coord requests_get url w = (Raise ValueError, w).
Proof.
  intros coord get url text w E. unfold read_txt_from_url. rewrite E.
  destruct (parse_response (Ok text)) as [df|e] eqn:Ep.
  - left. eauto.
  - right. destruct (parse_response_raises text e Ep) as [-> | ->]; auto.
Qed.

Lemma received_text_parses_or_raises_witness :
  online base_url = Ok eight_fields /\
  ((exists df, parse_response (Ok eight_fields) = Ok df /\
               read_txt_from_url Z online base_url january_session =
               (Ok (Some df), january_session)) \/
   read_txt_from_url Z online base_url january_session =
     (Raise ParserError, january_session) \/
   read_txt_from_url Z online base_url january_session =
     (Raise ValueError, january_session)).
Proof.
  split; [reflexivity|].
  exact (received_text_parses_or_raises Z online base_url eight_fields january_session
           eq_refl).
Defined.

(** X3.  When [read_csv] accepts a plain text (printable ASCII without
    the double quote, blanks, lines ended by LF or CR LF), it gives one
    record per line that has a field, and every record has exactly ten
    named cells, whatever the number of fields of the lines. *)
Theorem read_csv_gives_ten_cells :
  forall (text : string) (raw : list (label * list cell)),
    plain text = true ->
    read_csv.read_csv text = Ok raw ->
    length raw = length (read_csv.records text) /\
    Forall (fun r => length (snd r) = 10%nat) raw.
Proof. intros text raw _. apply read_csv_cells. Qed.

Lemma read_csv_gives_ten_cells_witness :
  plain eight_fields = true /\
  read_csv.read_csv eight_fields =
    Ok (numbered 0 (map (read_csv.pad 10) (read_csv.records eight_fields))) /\
  length (numbered 0 (map (read_csv.pad 10) (read_csv.records eight_fields))) =
    length (read_csv.records eight_fields) /\
  Forall (fun r => length (snd r) = 10%nat)
    (numbered 0 (map (read_csv.pad 10) (read_csv.records eight_fields))).
Proof.
  assert (read_csv.read_csv eight_fields =
          Ok (numbered 0 (map (read_csv.pad 10) (read_csv.records eight_fields)))) as H
    by (vm_compute; reflexivity).
  split; [reflexivity|]. split; [exact H|].
  exact (read_csv_gives_ten_cells eight_fields _ eq_refl H).
Defined.

(** X4.  The first record sets the width: for a plain text (printable
    ASCII without the double quote, blanks, lines ended by LF or CR LF),
    [read_csv] raises ParserError exactly when a later record has more
    fields than the first record and more than the ten names; the
    exception then leaves [read_txt_from_url], which does not catch it. *)
Theorem first_record_sets_the_width :
  forall (text : string) (first : list string) (later : list (list string)),
    plain text = true ->
    read_csv.records text = first :: later ->
    (read_csv.read_csv text = Raise ParserError <->
     Exists (fun fs => (Nat.max (length first) 10 < length fs)%nat) later) /\
    (Exists (fun fs => (Nat.max (length first) 10 < length fs)%nat) later ->
     forall (coord : Type) (w : world coord) (url : string),
       read_txt_from_url coord (fun _ => Ok text) url w = (Raise ParserError, w)).
Proof.
  intros text first later _ Hrecs.
  assert (read_csv.read_csv text = Raise ParserError <->
          Exists (fun fs => (Nat.max (length first) 10 < length fs)%nat) later) as Hiff.
  { rewrite read_csv_wide, Hrecs. cbn [read_csv.expected_fields].
    change (length read_csv.column_names) with 10%nat.
    rewrite Exists_cons. split; [intros [H|H]; [lia|exact H]|by right]. }
  split; [exact Hiff|].
  intros H coord w url. apply Hiff in H.
  unfold read_txt_from_url, parse_response. cbn [rbind]. by rewrite H.
Qed.

Lemma first_record_sets_the_width_witness :
  let first := ["2024"; "60"; "X"; "True"; "1.0"; "2.0"; "3.0"; "0.1"; "0.2"; "0.3"] in
  let later := [["2024"; "61"; "X"; "True"; "1.0"; "2.0"; "3.0"; "0.1"; "0.2"; "0.3"; "0.4"]] in
  plain eleven_fields = true /\
  read_csv.records eleven_fields = first :: later /\
  (read_csv.read_csv eleven_fields = Raise ParserError <->
   Exists (fun fs => (Nat.max (length first) 10 < length fs)%nat) later) /\
  (Exists (fun fs => (Nat.max (length first) 10 < length fs)%nat) later ->
   forall (coord : Type) (w : world coord) (url : string),
     read_txt_from_url coord (fun _ => Ok eleven_fields) url w = (Raise ParserError, w)).
Proof.
  intros first later.
  assert (read_csv.records eleven_fields = first :: later) as H by (vm_compute; reflexivity).
  split; [reflexivity|]. split; [exact H|].
  exact (first_record_sets_the_width eleven_fields first later eq_refl H).
Defined.

(** X5.  One line that lacks its year or its day (a line with the year
    alone, say, or with NA in the place of the field) makes the whole
    fetch fail: for a plain text (printable ASCII without the double
    quote, blanks, lines ended by LF or CR LF), when every line has at
    most ten fields and some line is such a line, parsing raises
    ValueError, and no row of any line is returned. *)
Theorem undated_line_fails_the_fetch :
  forall (text : string),
    plain text = true ->
    Forall (fun fs => (length fs <= 10)%nat) (read_csv.records text) ->
    Exists undated_line (read_csv.records text) ->
    parse_response (Ok text) = Raise ValueError /\
    forall (coord : Type) (w : world coord) (url : string),
      read_txt_from_url coord (fun _ => Ok text) url w = (Raise ValueError, w).
Proof.
  intros text _ Hlen Hbad.
  assert (parse_response (Ok text) = Raise ValueError) as H.
  { unfold parse_response. cbn [rbind]. rewrite read_csv_short by assumption.
    cbn [rbind]. by rewrite date_column_undated. }
  split; [exact H|]. intros coord w url. unfold read_txt_from_url. by rewrite H.
Qed.

Lemma undated_line_fails_the_fetch_witness :
  plain year_alone = true /\
  Forall (fun fs => (length fs <= 10)%nat) (read_csv.records year_alone) /\
  Exists undated_line (read_csv.records year_alone) /\
  parse_response (Ok year_alone) = Raise ValueError /\
  forall (coord : Type) (w : world coord) (url : string),
    read_txt_from_url coord (fun _ => Ok year_alone) url w = (Raise ValueError, w).
Proof.
  assert (read_csv.records year_alone =
          [["2024"; "60"; "X"; "True"; "1.0"; "2.0"; "3.0"; "0.1"; "0.2"; "0.3"]; ["2024"]])
    as Hrecs by (vm_compute; reflexivity).
  assert (Forall (fun fs => (length fs <= 10)%nat) (read_csv.records year_alone)) as Hlen
    by (rewrite Hrecs; repeat constructor; simpl; lia).
  assert (Exists undated_line (read_csv.records year_alone)) as Hbad
    by (rewrite Hrecs; right; left; right; reflexivity).
  split; [reflexivity|]. split; [exact Hlen|]. split; [exact Hbad|].
  exact (undated_line_fails_the_fetch year_alone eq_refl Hlen Hbad).
Defined.

(** X6.  Padding with zeros is dropped when the fields are read as
    integers: a zero put before the digits of the year field or of the
    day field of a line does not change the date of the line. *)
Theorem zero_padding_is_dropped :
  forall (yyyy ddd : string) (rest : list string),
    read_csv.nonempty ddd = true -> all_digits ddd = true ->
    read_csv.nonempty yyyy = true -> all_digits yyyy = true ->
    line_date (yyyy :: String "0" ddd :: rest) = line_date (yyyy :: ddd :: rest) /\
    line_date (String "0" yyyy :: ddd :: rest) = line_date (yyyy :: ddd :: rest).
Proof.
  intros yyyy ddd rest Hn Hd Hyn Hyd. unfold line_date.
  by rewrite !int_literal_zero.
Qed.

Lemma zero_padding_is_dropped_witness :
  read_csv.nonempty "60" = true /\ all_digits "60" = true /\
  read_csv.nonempty "2024" = true /\ all_digits "2024" = true /\
  line_date ["2024"; "060"; "X"] = line_date ["2024"; "60"; "X"] /\
  line_date ["02024"; "60"; "X"] = line_date ["2024"; "60"; "X"].
Proof.
  do 4 (split; [reflexivity|]).
  exact (zero_padding_is_dropped "2024" "60" ["X"] eq_refl eq_refl eq_refl eq_refl).
Defined.

(** X7.  The 'Date' text written at the fetch is read back by the filter
    as the same day: for a year a Timestamp can hold and a day of that
    year, the entry made of them parses with [%m/%d/%Y] to a date of
    that year whose day number in the year is the one of the file. *)
Theorem date_text_reads_back :
  forall (y doy : Z),
    first_year <= y <= last_year ->
    1 <= doy <= datetime.days_in_year y ->
    exists (text : string) (dt : datetime.date),
      date_entry y doy = Ok text /\
      strptime.strptime_mdY text = Ok dt /\
      datetime.year dt = y /\ datetime.yday dt = doy.
Proof.
  intros y doy Hy Hd.
  destruct (date_entry_in_year y doy Hy Hd) as (dt & He & Hv & Hyear & Hyday).
  exists (strptime.strftime_mdY dt), dt. split; [assumption|].
  split; [|by split].
  apply strptime_strftime. split; [assumption|by rewrite Hyear].
Qed.

Lemma date_text_reads_back_witness :
  first_year <= 2024 <= last_year /\
  1 <= 60 <= datetime.days_in_year 2024 /\
  exists (text : string) (dt : datetime.date),
    date_entry 2024 60 = Ok text /\
    strptime.strptime_mdY text = Ok dt /\
    datetime.year dt = 2024 /\ datetime.yday dt = 60.
Proof.
  assert (first_year <= 2024 <= last_year) as Hy by (unfold first_year, last_year; lia).
  assert (1 <= 60 <= datetime.days_in_year 2024) as Hd by (vm_compute; split; discriminate).
  split; [exact Hy|]. split; [exact Hd|].
  exact (date_text_reads_back 2024 60 Hy Hd).
Defined.

(** X8.  A fetched text can always be shown: when the server answers
    with a plain text (printable ASCII without the double quote, blanks,
    lines ended by LF or CR LF) of at least one line, every line has at
    most ten fields and starts with a year from 1678 to 2261 and a day
    of that year, the fetch stores a frame of one row per line and sets
    the flag, and the filter section that follows never raises; on
    'Show Data' it stores and shows a frame that is not empty. *)
Theorem fetched_data_can_be_shown :
  forall (coord : Type) (inp : inputs) (w : world coord) (site text : string),
    fetch_clicked inp = true ->
    selected_site inp = Some site ->
    read_csv.nonempty site = true ->
    requests_get inp (base_url +:+ site) = Ok text ->
    plain text = true ->
    read_csv.records text <> [] ->
    Forall (fun fs => (length fs <= 10)%nat) (read_csv.records text) ->
    Forall dated_line (read_csv.records text) ->
    exists (df : DataFrame) (w1 : world coord),
      parse_response (Ok text) = Ok df /\
      length df = length (read_csv.records text) /\
      fetch_section coord inp w = (Ok tt, w1) /\
      session_state w1 =
        <["show_date_filter" := VBool true]> (<["data" := VFrame df]> (session_state w)) /\
      screen w1 = screen w /\
      forall inp2 : inputs,
        exists w2 : world coord,
          date_filter_section coord inp2 w1 = (Ok tt, w2) /\
          (show_clicked inp2 = true ->
           exists out : DataFrame,
             out <> [] /\
             session_state w2 !! "filtered_data" = Some (VFrame out) /\
             screen w2 = (screen w1 ++ [Table out])%list).
Proof.
  intros coord inp w site text Hc Hs Hn Hr _ Hne Hlen Hd.
  destruct (parse_response_dated text Hlen Hd) as (recs & Hw & Hl & Hp).
  exists (map snd recs). eexists.
  split; [exact Hp|]. split; [by rewrite length_map|].
  split; [by eapply fetch_section_success|].
  split; [reflexivity|]. split; [reflexivity|].
  intros inp2.
  assert (recs <> []) as Hrecs by (intros ->; destruct (read_csv.records text); done).
  edestruct (date_filter_section_written coord inp2) as (w2 & Hrun & _ & Hshow);
    [exact Hrecs|exact Hw| | |].
  3:{ exists w2. split; [exact Hrun|]. intros Hclick.
      destruct (Hshow Hclick) as (start & out & [_ ->] & Hout & _).
      exists out. split; [assumption|]. cbn [session_state screen].
      split; [by rewrite lookup_insert_eq|reflexivity]. }
  - cbn [session_state]. by rewrite lookup_insert_eq.
  - cbn [session_state]. rewrite lookup_insert_ne by done. by rewrite lookup_insert_eq.
Qed.

Lemma fetched_data_can_be_shown_witness :
  fetch_clicked fetch_two_days = true /\
  selected_site fetch_two_days = Some "ab01" /\
  read_csv.nonempty "ab01" = true /\
  requests_get fetch_two_days (base_url +:+ "ab01") = Ok two_days /\
  plain two_days = true /\
  read_csv.records two_days <> [] /\
  Forall (fun fs => (length fs <= 10)%nat) (read_csv.records two_days) /\
  Forall dated_line (read_csv.records two_days) /\
  exists (df : DataFrame) (w1 : world Z),
    parse_response (Ok two_days) = Ok df /\
    length df = length (read_csv.records two_days) /\
    fetch_section Z fetch_two_days fresh = (Ok tt, w1) /\
    session_state w1 =
      <["show_date_filter" := VBool true]> (<["data" := VFrame df]> (session_state (fresh (coord := Z)))) /\
    screen w1 = screen (fresh (coord := Z)) /\
    forall inp2 : inputs,
      exists w2 : world Z,
        date_filter_section Z inp2 w1 = (Ok tt, w2) /\
        (show_clicked inp2 = true ->
         exists out : DataFrame,
           out <> [] /\
           session_state w2 !! "filtered_data" = Some (VFrame out) /\
           screen w2 = (screen w1 ++ [Table out])%list).
Proof.
  assert (read_csv.records two_days <> []) as Hne
    by (rewrite two_days_records; discriminate).
  assert (Forall (fun fs => (length fs <= 10)%nat) (read_csv.records two_days)) as Hlen
    by (rewrite two_days_records; repeat constructor; simpl; lia).
  do 5 (split; [reflexivity|]).
  split; [exact Hne|]. split; [exact Hlen|]. split; [exact two_days_dated|].
  exact (fetched_data_can_be_shown Z fetch_two_days fresh "ab01" two_days
           eq_refl eq_refl eq_refl eq_refl eq_refl Hne Hlen two_days_dated).
Defined.





(** X11.  A successful fetch replaces 'data' and sets the flag, shows
    nothing, and leaves 'filtered_data' as it was: the rows filtered
    from the data of the site fetched before stay in the session, and
    'Convert' still converts those rows. *)
Theorem new_fetch_keeps_old_filtered_data :
  forall (coord : Type) (transform : cell -> cell -> cell -> result (coord * coord * coord))
         (inp : inputs) (w : world coord) (site text : string) (df : DataFrame),
    fetch_clicked inp = true ->
    selected_site inp = Some site ->
    read_csv.nonempty site = true ->
    requests_get inp (base_url +:+ site) = Ok text ->
    parse_response (Ok text) = Ok df ->
    exists w1 : world coord,
      fetch_section coord inp w = (Ok tt, w1) /\
      session_state w1 !! "data" = Some (VFrame df) /\
      session_state w1 !! "show_date_filter" = Some (VBool true) /\
      session_state w1 !! "filtered_data" = session_state w !! "filtered_data" /\
      screen w1 = screen w /\
      forall (inp2 : inputs) (old : DataFrame) (cs : list (converted_row coord)),
        session_state w !! "filtered_data" = Some (VFrame old) ->
        convert_clicked inp2 = true ->
        convert coord transform old = Ok cs ->
        convert_section coord transform inp2 w1 =
        (Ok tt, mkworld (session_state w1) (screen w1 ++ [Converted cs]) (filter_calls w1)).
Proof.
  intros coord transform inp w site text df Hc Hs Hn Hr Hp.
  eexists. split; [by eapply fetch_section_success|].
  cbn [session_state screen filter_calls].
  assert (forall v : value,
            <["show_date_filter" := v]> (<["data" := VFrame df]> (session_state w))
              !! "filtered_data" = session_state w !! "filtered_data") as Hold
    by (intros v; by rewrite !lookup_insert_ne by done).
  split; [rewrite lookup_insert_ne by done; by rewrite lookup_insert_eq|].
  split; [by rewrite lookup_insert_eq|].
  split; [apply Hold|]. split; [reflexivity|].
  intros inp2 old cs Hf Hclick Hconv.
  erewrite convert_section_on; [|cbn [session_state]; rewrite Hold; exact Hf|exact Hclick].
  by rewrite Hconv.
Qed.

Lemma new_fetch_keeps_old_filtered_data_witness :
  let w := mkworld (<["filtered_data" := VFrame [jan1]]> (session_state january_session))
             [] [] in
  let df := [mkrow (RangeLabel 0) "02/29/2024" (Some "X") (Some "True")
               (Some "1.0") (Some "2.0") (Some "3.0") (Some "0.1") None None] in
  fetch_clicked (mkinputs online (Some "ab01") true None 0 false false) = true /\
  selected_site (mkinputs online (Some "ab01") true None 0 false false) = Some "ab01" /\
  read_csv.nonempty "ab01" = true /\
  online (base_url +:+ "ab01") = Ok eight_fields /\
  parse_response (Ok eight_fields) = Ok df /\
  exists w1 : world Z,
    fetch_section Z (mkinputs online (Some "ab01") true None 0 false false) w = (Ok tt, w1) /\
    session_state w1 !! "data" = Some (VFrame df) /\
    session_state w1 !! "show_date_filter" = Some (VBool true) /\
    session_state w1 !! "filtered_data" = session_state w !! "filtered_data" /\
    screen w1 = screen w /\
    forall (inp2 : inputs) (old : DataFrame) (cs : list (converted_row Z)),
      session_state w !! "filtered_data" = Some (VFrame old) ->
      convert_clicked inp2 = true ->
      convert Z origin old = Ok cs ->
      convert_section Z origin inp2 w1 =
      (Ok tt, mkworld (session_state w1) (screen w1 ++ [Converted cs]) (filter_calls w1)).
Proof.
  intros w df.
  assert (parse_response (Ok eight_fields) = Ok df) as Hp by (vm_compute; reflexivity).
  do 4 (split; [reflexivity|]). split; [exact Hp|].
  exact (new_fetch_keeps_old_filtered_data Z origin
           (mkinputs online (Some "ab01") true None 0 false false) w "ab01" eight_fields df
           eq_refl eq_refl eq_refl eq_refl Hp).
Defined.

(** X12.  A run in which no button is clicked changes nothing: whatever
    the session holds and whether the run ends or raises, the session
    state is the same after it, the run shows no error, no table and no
    converted table, and the filter is not evaluated. *)
Theorem run_without_click_changes_nothing :
  forall (coord : Type) (transform : cell -> cell -> cell -> result (coord * coord * coord))
         (inp : inputs) (w w' : world coord) (r : result unit),
    fetch_clicked inp = false ->
    show_clicked inp = false ->
    convert_clicked inp = false ->
    script coord transform inp w = (r, w') ->
    w' = w.
Proof. exact script_idle. Qed.

Lemma run_without_click_changes_nothing_witness :
  let inp := mkinputs offline (Some "ab01") false None 0 false false in
  fetch_clicked inp = false /\ show_clicked inp = false /\ convert_clicked inp = false /\
  script Z origin inp january_session =
    (fst (script Z origin inp january_session), snd (script Z origin inp january_session)) /\
  snd (script Z origin inp january_session) = january_session.
Proof.
  intros inp.
  assert (script Z origin inp january_session =
          (fst (script Z origin inp january_session),
           snd (script Z origin inp january_session))) as Hrun
    by (destruct (script Z origin inp january_session); reflexivity).
  do 3 (split; [reflexivity|]). split; [exact Hrun|].
  exact (run_without_click_changes_nothing Z origin inp january_session _ _
           eq_refl eq_refl eq_refl Hrun).
Defined.

(** X13.  The conversion raises exactly when the transformation raises
    for some row: the exception is the one of the first such row, the
    rows before it were transformed and their results are lost; the
    DataFrame constructor never refuses the six lists, which are as long
    as the frame. *)
Theorem convert_raises_with_the_transformation :
  forall (coord : Type) (transform : cell -> cell -> cell -> result (coord * coord * coord))
         (data : DataFrame) (e : exn),
    convert coord transform data = Raise e <->
    exists (before : DataFrame) (r : row) (after : DataFrame),
      data = (before ++ r :: after)%list /\
      Forall (transformed transform) before /\
      transform (X_m r) (Y_m r) (Z_m r) = Raise e.
Proof. exact convert_raises. Qed.

(** X14.  The convert section only shows: it never changes the session
    state, so the converted frame is not kept; when it shows something
    it is the conversion of the stored 'filtered_data', after a click on
    'Convert', and when the conversion raises nothing is shown. *)
Theorem convert_shows_without_storing :
  forall (coord : Type) (transform : cell -> cell -> cell -> result (coord * coord * coord))
         (inp : inputs) (w w' : world coord) (r : result unit),
    convert_section coord transform inp w = (r, w') ->
    session_state w' = session_state w /\
    filter_calls w' = filter_calls w /\
    (screen w' = screen w \/
     exists (data : DataFrame) (cs : list (converted_row coord)),
       r = Ok tt /\ convert_clicked inp = true /\
       session_state w !! "filtered_data" = Some (VFrame data) /\
       convert coord transform data = Ok cs /\
       screen w' = (screen w ++ [Converted cs])%list).
Proof. exact convert_section_effect. Qed.

Lemma convert_shows_without_storing_witness :
  let inp := mkinputs offline (Some "ab01") false None 0 false true in
  let w := mkworld (<["filtered_data" := VFrame [jan1]]> (session_state january_session))
             [] [] in
  let run := convert_section Z origin inp w in
  convert_section Z origin inp w = (fst run, snd run) /\
  session_state (snd run) = session_state w /\
  filter_calls (snd run) = filter_calls w /\
  (screen (snd run) = screen w \/
   exists (data : DataFrame) (cs : list (converted_row Z)),
     fst run = Ok tt /\ convert_clicked inp = true /\
     session_state w !! "filtered_data" = Some (VFrame data) /\
     convert Z origin data = Ok cs /\
     screen (snd run) = (screen w ++ [Converted cs])%list).
Proof.
  intros inp w run.
  assert (convert_section Z origin inp w = (fst run, snd run)) as Hrun
    by (unfold run; destruct (convert_section Z origin inp w); reflexivity).
  split; [exact Hrun|].
  exact (convert_shows_without_storing Z origin inp w (snd run) (fst run) Hrun).
Defined.

(** X15.  The session keeps its shape: a first run starts from a session
    in which 'show_date_filter', when set, is a boolean, 'data' is a
    frame whenever the flag is True, and 'filtered_data', when set, is a
    frame; every run keeps this, whether it ends or raises.  So a read
    of the session never fails: an exception of a run is the one of the
    request or of the transformation, or a ParserError or ValueError of
    pandas. *)
Theorem session_reads_never_fail :
  (forall coord : Type, session_ok (fresh (coord := coord))) /\
  (forall (coord : Type)
          (transform : cell -> cell -> cell -> result (coord * coord * coord))
          (inp : inputs) (w w' : world coord) (r : result unit),
     session_ok w ->
     script coord transform inp w = (r, w') ->
     session_ok w' /\ forall e : exn, r = Raise e -> raised_by transform inp e).
Proof.
  split; [|exact script_ok].
  intros coord. unfold session_ok, fresh. cbn [session_state].
  rewrite !lookup_empty. repeat split; intros; discriminate.
Qed.

Lemma session_reads_never_fail_witness :
  let run := script Z origin show_from_jan2 january_session in
  session_ok january_session /\
  script Z origin show_from_jan2 january_session = (fst run, snd run) /\
  session_ok (snd run) /\
  forall e : exn, fst run = Raise e -> raised_by origin show_from_jan2 e.
Proof.
  intros run.
  assert (script Z origin show_from_jan2 january_session = (fst run, snd run)) as Hrun
    by (unfold run; destruct (script Z origin show_from_jan2 january_session); reflexivity).
  split; [exact january_session_ok|]. split; [exact Hrun|].
  exact (proj2 session_reads_never_fail Z origin show_from_jan2 january_session
           (snd run) (fst run) january_session_ok Hrun).
Defined.

(** X16.  After a request that failed the filter is hidden: the frame
    fetched before is still stored, but the filter section does nothing,
    whatever is clicked or picked, until a fetch succeeds. *)
Theorem failed_fetch_hides_the_filter :
  forall (coord : Type) (inp : inputs) (w : world coord) (site msg : string),
    fetch_clicked inp = true ->
    selected_site inp = Some site ->
    read_csv.nonempty site = true ->
    requests_get inp (base_url +:+ site) = Raise (RequestException msg) ->
    exists w1 : world coord,
      fetch_section coord inp w = (Ok tt, w1) /\
      session_state w1 !! "data" = session_state w !! "data" /\
      forall inp2 : inputs, date_filter_section coord inp2 w1 = (Ok tt, w1).
Proof.
  intros coord inp w site msg Hc Hs Hn Hr.
  destruct (fetch_section_failure coord inp w site msg Hc Hs Hn Hr) as [_ Hfetch].
  eexists. split; [exact Hfetch|]. cbn [session_state].
  split; [by rewrite lookup_insert_ne by done|].
  intros inp2. apply date_filter_section_hidden. cbn [session_state].
  by rewrite lookup_insert_eq.
Qed.

Lemma failed_fetch_hides_the_filter_witness :
  fetch_clicked fetch_offline = true /\
  selected_site fetch_offline = Some "ab01" /\
  read_csv.nonempty "ab01" = true /\
  requests_get fetch_offline (base_url +:+ "ab01") =
    Raise (RequestException "503 Server Error") /\
  exists w1 : world Z,
    fetch_section Z fetch_offline january_session = (Ok tt, w1) /\
    session_state w1 !! "data" = session_state january_session !! "data" /\
    forall inp2 : inputs, date_filter_section Z inp2 w1 = (Ok tt, w1).
Proof.
  do 4 (split; [reflexivity|]).
  exact (failed_fetch_hides_the_filter Z fetch_offline january_session "ab01"
           "503 Server Error" eq_refl eq_refl eq_refl eq_refl).
Defined.
